(** * Observability demo: the Go service handlers, the traffic generator
      script and the browser telemetry initialiser

    Three parts of the repository are embedded here, each in a module of its
    own:

    - [GoService]: [services/go-service/main.go], the three HTTP handlers with
      the telemetry they emit (spans, log lines, counter and histogram
      samples) and the response they write;
    - [Traffic]: [generate-traffic.sh], the weighted journey selection, the
      journeys, [make_request] and the main loop under [set -e];
    - [Telemetry]: the browser-side [initializeTelemetry] with its
      module-level [isInitialized] flag.

    Everything outside the program (the clock, bash's random generator, curl,
    the OpenTelemetry SDK) is an input of the model. *)

From Stdlib Require Import ZArith Lia Ascii.
From stdpp Require Import base strings list gmap pretty.

Set Warnings "-register-all".

Open Scope Z_scope.

(* ===================================================================== *)
(** * The Go service                                                      *)
(* ===================================================================== *)

Module GoService.

(** ** Data *)

(** Go values stored in a [map[string]interface{}] and handed to
    [encoding/json]. *)
Inductive value :=
| VInt (z : Z)
| VStr (s : string)
| VBool (b : bool)
| VList (l : list value)
| VMap (m : gmap string value).

(** [attribute.String] / [attribute.Bool] key-values. *)
Inductive attr_value :=
| AString (s : string)
| ABool (b : bool).

Definition KeyValue : Type := string * attr_value.

Definition attribute_String (k v : string) : KeyValue := (k, AString v).
Definition attribute_Bool (k : string) (b : bool) : KeyValue := (k, ABool b).

(** [metric.WithAttributes(kvs...)]: the attribute set of a measurement; a
    later key-value replaces an earlier one with the same key. *)
Definition WithAttributes (kvs : list KeyValue) : gmap string attr_value :=
  foldl (fun m kv => <[kv.1 := kv.2]> m) ∅ kvs.

(** The span context carried by the request's [context.Context] (put there by
    the otelhttp wrapper or absent); [None] is a context whose span context is
    not valid. *)
Record SpanContext := { TraceID : string; SpanID : string }.

Record Request := {
  Method : string;
  Path : string;
  Context : option SpanContext
}.

(** What a handler sends to the telemetry pipeline, in program order. Spans
    are named by the handle [tracer.Start] returned. *)
Inductive event :=
| SpanStart (id : nat) (name : string)
| SpanSetAttributes (id : nat) (kvs : list KeyValue)
| SpanEnd (id : nat)
| LogLine (entry : gmap string value)
| CounterAdd (instrument : string) (incr : Z) (labels : gmap string attr_value)
| HistogramRecord (instrument : string) (observed : Z)
    (labels : gmap string attr_value).

(** [http.ResponseWriter]: the header map, the status once it is written, and
    the JSON documents written to the body. *)
Record ResponseWriter := {
  header : gmap string string;
  status : option Z;
  body : list value
}.

Definition fresh_writer : ResponseWriter :=
  {| header := ∅; status := None; body := [] |}.

(** The handler's view of the process: next span handle, number of clock
    readings taken, and the response under construction. *)
Record state := {
  next_span : nat;
  ticks : nat;
  w : ResponseWriter
}.

(** The outside world: the n-th reading of [time.Now()] in nanoseconds since
    the epoch, and [time.Time.Format(time.RFC3339)]. *)
Record Env := {
  time_Now : nat -> Z;
  RFC3339 : Z -> string
}.

(** ** A state-and-output monad for handlers *)

Definition M (A : Type) : Type := Env -> state -> A * state * list event.

#[global] Instance M_ret : MRet M := fun A a _ s => (a, s, []).

#[global] Instance M_bind : MBind M := fun A B k m env s =>
  let '(a, s1, out1) := m env s in
  let '(b, s2, out2) := k a env s1 in
  (b, s2, out1 ++ out2).

Definition emit (e : event) : M unit := fun _ s => (tt, s, [e]).

Definition modify_writer (f : ResponseWriter -> ResponseWriter) : M unit :=
  fun _ s =>
    (tt, {| next_span := next_span s; ticks := ticks s; w := f (w s) |}, []).

(** [time.Now()]. *)
Definition time_now : M Z :=
  fun env s =>
    (time_Now env (ticks s),
     {| next_span := next_span s; ticks := S (ticks s); w := w s |}, []).

Definition format_RFC3339 (t : Z) : M string := fun env s => (RFC3339 env t, s, []).

(** [tracer.Start(ctx, name)]: a new span with a fresh handle. *)
Definition tracer_Start (name : string) : M nat :=
  fun _ s =>
    (next_span s,
     {| next_span := S (next_span s); ticks := ticks s; w := w s |},
     [SpanStart (next_span s) name]).

Definition span_SetAttributes (id : nat) (kvs : list KeyValue) : M unit :=
  emit (SpanSetAttributes id kvs).

Definition span_End (id : nat) : M unit := emit (SpanEnd id).

(** ** The response writer *)

(** [w.Header().Set(k, v)]: no effect on the response once the header is
    written. *)
Definition Header_Set (k v : string) : M unit :=
  modify_writer (fun rw =>
    match status rw with
    | Some _ => rw
    | None => {| header := <[k := v]> (header rw); status := None; body := body rw |}
    end).

(** [w.WriteHeader(code)]: only the first call counts. *)
Definition WriteHeader (code : Z) : M unit :=
  modify_writer (fun rw =>
    match status rw with
    | Some _ => rw
    | None => {| header := header rw; status := Some code; body := body rw |}
    end).

Definition StatusOK : Z := 200.
Definition StatusInternalServerError : Z := 500.

(** [json.NewEncoder(w).Encode(v)]: one JSON document written to the body;
    the first write sends status 200 when no header was written before. *)
Definition Encode (v : value) : M unit :=
  modify_writer (fun rw =>
    {| header := header rw;
       status := Some (default StatusOK (status rw));
       body := body rw ++ [v] |}).

(** ** logJSON *)

(** The entry [logJSON] marshals: the four fixed keys, the trace and span
    ids when the context's span context is valid, then the caller's fields
    (which replace an existing key). *)
Definition log_entry (stamp : string) (ctx : option SpanContext)
    (level message : string) (fields : gmap string value) : gmap string value :=
  let logEntry : gmap string value :=
    <["service" := VStr "go-service"]>
    (<["message" := VStr message]>
    (<["level" := VStr level]>
    (<["timestamp" := VStr stamp]> ∅))) in
  let logEntry :=
    match ctx with
    | Some sc =>
        <["span_id" := VStr (SpanID sc)]>
          (<["trace_id" := VStr (TraceID sc)]> logEntry)
    | None => logEntry
    end in
  (* for k, v := range fields { logEntry[k] = v } *)
  fields ∪ logEntry.

Definition logJSON (ctx : option SpanContext) (level message : string)
    (fields : gmap string value) : M unit :=
  now ← time_now;
  stamp ← format_RFC3339 now;
  emit (LogLine (log_entry stamp ctx level message fields)).

(** ** Handlers *)

Definition requestCounter : string := "http_requests_total".
Definition requestDuration : string := "http_request_duration_seconds".

Definition requestCounter_Add (incr : Z) (kvs : list KeyValue) : M unit :=
  emit (CounterAdd requestCounter incr (WithAttributes kvs)).

(** The recorded duration is kept in nanoseconds; the source converts it to
    seconds as a float before recording. *)
Definition requestDuration_Record (d : Z) (kvs : list KeyValue) : M unit :=
  emit (HistogramRecord requestDuration d (WithAttributes kvs)).

(** [time.Since(start)]. *)
Definition time_Since (start : Z) : M Z :=
  now ← time_now; mret (now - start).

Definition rootHandler (r : Request) : M unit :=
  start ← time_now;
  let ctx := Context r in
  span ← tracer_Start "root_handler";
  (* defer span.End() *)
  span_SetAttributes span
    [attribute_String "http.method" "GET"; attribute_String "http.route" "/"];;
  logJSON ctx "INFO" "Processing root request" ∅;;
  unix ← time_now;
  let response : gmap string value :=
    <["timestamp" := VInt (unix / 1000000000)]>
    (<["message" := VStr "Hello from Go service!"]>
    (<["service" := VStr "go"]> ∅)) in
  Header_Set "Content-Type" "application/json";;
  Encode (VMap response);;
  duration ← time_Since start;
  requestCounter_Add 1
    [attribute_String "method" "GET"; attribute_String "endpoint" "/"];;
  requestDuration_Record duration
    [attribute_String "method" "GET"; attribute_String "endpoint" "/"];;
  span_End span.

(** [fmt.Sprintf("item-%d", i)]. *)
Definition item_name (i : Z) : string := "item-" +:+ pretty i.

(** [data := make([]map[string]interface{}, 10)] followed by the loop
    [for i := 0; i < 10; i++ { data[i] = ... }]. *)
Definition make_data : list value :=
  foldl (fun data i =>
           <[i := VMap (<["value" := VStr (item_name (Z.of_nat i))]>
                        (<["id" := VInt (Z.of_nat i)]> ∅))]> data)
        (replicate 10 (VMap ∅)) (seq 0 10).

Definition len (data : list value) : Z := Z.of_nat (length data).

Definition dataHandler (r : Request) : M unit :=
  start ← time_now;
  let ctx := Context r in
  span ← tracer_Start "get_data_handler";
  (* defer span.End() *)
  span_SetAttributes span
    [attribute_String "http.method" "GET"; attribute_String "http.route" "/data"];;
  logJSON ctx "INFO" "Fetching data" ∅;;
  (* Simulate database query; the sleep only moves the clock. *)
  dbSpan ← tracer_Start "database_query";
  let data := make_data in
  span_End dbSpan;;
  logJSON ctx "INFO" "Retrieved items" (<["item_count" := VInt (len data)]> ∅);;
  let response : gmap string value :=
    <["count" := VInt (len data)]> (<["data" := VList data]> ∅) in
  Header_Set "Content-Type" "application/json";;
  Encode (VMap response);;
  duration ← time_Since start;
  requestCounter_Add 1
    [attribute_String "method" "GET"; attribute_String "endpoint" "/data"];;
  requestDuration_Record duration
    [attribute_String "method" "GET"; attribute_String "endpoint" "/data"];;
  span_End span.

Definition errorHandler (r : Request) : M unit :=
  let ctx := Context r in
  span ← tracer_Start "error_handler";
  (* defer span.End() *)
  span_SetAttributes span
    [attribute_String "http.method" "GET";
     attribute_String "http.route" "/error";
     attribute_Bool "error" true];;
  logJSON ctx "ERROR" "Simulated error occurred"
    (<["error_type" := VStr "SimulatedError"]> ∅);;
  requestCounter_Add 1
    [attribute_String "method" "GET";
     attribute_String "endpoint" "/error";
     attribute_String "status" "error"];;
  Header_Set "Content-Type" "application/json";;
  WriteHeader StatusInternalServerError;;
  Encode (VMap (<["error" := VStr "This is a simulated error"]> ∅));;
  span_End span.

(** ** Routing, CORS and serving *)

Definition ends_with_slash (pat : string) : bool :=
  match String.get (String.length pat - 1) pat with
  | Some c => bool_decide (c = "/"%char)
  | None => false
  end.

(** A [ServeMux] pattern ending in a slash names a subtree, any other one a
    single path. *)
Definition pattern_matches (pat path : string) : bool :=
  if ends_with_slash pat then String.prefix pat path else String.eqb pat path.

(** The registrations of [main]. *)
Definition routes : list (string * (Request -> M unit)) :=
  [("/", rootHandler); ("/data", dataHandler); ("/error", errorHandler)].

(** [http.NotFound], the mux's answer when no pattern matches; its plain-text
    body is kept as a string. *)
Definition NotFound (r : Request) : M unit :=
  Header_Set "Content-Type" "text/plain; charset=utf-8";;
  WriteHeader 404;;
  Encode (VStr "404 page not found").

(** The longest registered pattern that matches wins. The path is the one
    the mux matches: the redirect it sends for a path that is not clean is
    not part of the model. *)
Definition mux_lookup (path : string) : Request -> M unit :=
  (foldl (fun best '(pat, h) =>
            if pattern_matches pat path
               && bool_decide (String.length best.1 <= String.length pat)%nat
            then (pat, h) else best)
         (EmptyString, NotFound) routes).2.

Definition mux (r : Request) : M unit := mux_lookup (Path r) r.

Definition enableCORS (next : Request -> M unit) (r : Request) : M unit :=
  Header_Set "Access-Control-Allow-Origin" "*";;
  Header_Set "Access-Control-Allow-Methods" "GET, POST, OPTIONS";;
  Header_Set "Access-Control-Allow-Headers" "*";;
  if String.eqb (Method r) "OPTIONS" then WriteHeader StatusOK
  else next r.

(** [enableCORS(otelhttp.NewHandler(mux, "go-service"))]: the otelhttp wrapper
    is the SDK's; what the handlers see of it is the span context in the
    request's context. *)
Definition handler : Request -> M unit := enableCORS mux.

(** One request served: the server hands the handler a fresh response
    writer. What the server does by itself (its answer to [OPTIONS *], the
    body it drops for HEAD) is not part of the model. *)
Definition serve (r : Request) (env : Env) (s : state) : unit * state * list event :=
  handler r env {| next_span := next_span s; ticks := ticks s; w := fresh_writer |}.

Definition emitted (res : unit * state * list event) : list event := res.2.
Definition response (res : unit * state * list event) : ResponseWriter := w res.1.2.

Definition GET (path : string) (ctx : option SpanContext) : Request :=
  {| Method := "GET"; Path := path; Context := ctx |}.

(** ** Observations on the emitted telemetry *)

Definition count (p : event -> bool) (t : list event) : nat :=
  length (List.filter p t).

Definition is_log (e : event) : bool :=
  match e with LogLine _ => true | _ => false end.

Definition is_counter_add (e : event) : bool :=
  match e with CounterAdd _ _ _ => true | _ => false end.

Definition is_histogram (e : event) : bool :=
  match e with HistogramRecord _ _ _ => true | _ => false end.

Definition is_end_of (id : nat) (e : event) : bool :=
  match e with SpanEnd j => Nat.eqb j id | _ => false end.

(** Handles of the spans created, in order. *)
Definition spans_started (t : list event) : list nat :=
  omap (fun e => match e with SpanStart id _ => Some id | _ => None end) t.

(** Every span created in [t] is ended exactly once in [t]. *)
Definition all_finalized (t : list event) : Prop :=
  Forall (fun id => count (is_end_of id) t = 1%nat) (spans_started t).

(** The label sets of all metric samples, of the counter increments and of
    the histogram observations. *)
Definition metric_labels (t : list event) : list (gmap string attr_value) :=
  omap (fun e => match e with
                 | CounterAdd _ _ l | HistogramRecord _ _ l => Some l
                 | _ => None
                 end) t.

Definition counter_labels (t : list event) : list (gmap string attr_value) :=
  omap (fun e => match e with CounterAdd _ _ l => Some l | _ => None end) t.

Definition histogram_labels (t : list event) : list (gmap string attr_value) :=
  omap (fun e => match e with HistogramRecord _ _ l => Some l | _ => None end) t.

Definition log_entries (t : list event) : list (gmap string value) :=
  omap (fun e => match e with LogLine entry => Some entry | _ => None end) t.

(** The per-request contract as the specification words it: one span, created
    and finalized; at least one log record; one counter increment and one
    histogram observation. *)
Definition instrumentation_contract (t : list event) : Prop :=
  length (spans_started t) = 1%nat /\ all_finalized t /\
  (1 <= count is_log t)%nat /\
  count is_counter_add t = 1%nat /\ count is_histogram t = 1%nat.

(** Every metric sample of [t] carries all of [keys] as labels. *)
Definition carry_labels (keys : list string) (t : list event) : Prop :=
  Forall (fun l : gmap string attr_value =>
            Forall (fun k => is_Some (l !! k)) keys)
         (metric_labels t).

(** ** Expected values, in the specification's words *)

(** One element of the [/data] payload. *)
Definition item (id : Z) (v : string) : value :=
  VMap (<["value" := VStr v]> (<["id" := VInt id]> ∅)).

(** "10 items with id 0..9 and value item-N". *)
Definition ten_items : list value :=
  [item 0 "item-0"; item 1 "item-1"; item 2 "item-2"; item 3 "item-3";
   item 4 "item-4"; item 5 "item-5"; item 6 "item-6"; item 7 "item-7";
   item 8 "item-8"; item 9 "item-9"].

(** The label set method=GET, endpoint=[route]. *)
Definition route_labels (route : string) : gmap string attr_value :=
  <["endpoint" := AString route]> (<["method" := AString "GET"]> ∅).

(** ** Further observations *)

(** The observed values of the histogram samples. *)
Definition histogram_values (t : list event) : list Z :=
  omap (fun e => match e with HistogramRecord _ v _ => Some v | _ => None end) t.

(** The three headers [enableCORS] sets. *)
Definition cors_headers : list (string * string) :=
  [("Access-Control-Allow-Origin", "*");
   ("Access-Control-Allow-Methods", "GET, POST, OPTIONS");
   ("Access-Control-Allow-Headers", "*")].

(** A clock whose readings never go back, as the monotonic reading behind
    [time.Since] guarantees. *)
Definition monotone (env : Env) : Prop :=
  forall n m : nat, (n <= m)%nat -> time_Now env n <= time_Now env m.

(** The telemetry of a sequence of requests served one after the other. *)
Fixpoint serve_all (env : Env) (rs : list Request) (s : state) : list event :=
  match rs with
  | [] => []
  | r :: rest =>
      let '(_, s', t) := serve r env s in
      t ++ serve_all env rest s'
  end.

(** A request to one of the three registered paths. *)
Definition documented (r : Request) : Prop :=
  Path r = "/" \/ Path r = "/data" \/ Path r = "/error".

(** A CORS preflight. *)
Definition is_preflight (r : Request) : bool := String.eqb (Method r) "OPTIONS".

(** A request the server hands to the handler of [main]: every request but
    the server-wide [OPTIONS *], which [net/http] answers by itself. *)
Definition reaches_handler (r : Request) : Prop :=
  ~ (Method r = "OPTIONS" /\ Path r = "*").

(** A method that neither [enableCORS] (OPTIONS) nor the server (HEAD, whose
    body it drops; CONNECT, whose path the mux does not clean) sets apart. *)
Definition plain_method (m : string) : Prop :=
  m <> "OPTIONS" /\ m <> "HEAD" /\ m <> "CONNECT".

(** A log entry that names the service, has its three fixed fields, and
    carries the trace and span ids of [ctx] when [ctx] holds a valid span
    context and no such keys otherwise. *)
Definition correlated (ctx : option SpanContext) (entry : gmap string value) : Prop :=
  entry !! "service" = Some (VStr "go-service") /\
  is_Some (entry !! "timestamp") /\ is_Some (entry !! "level") /\
  is_Some (entry !! "message") /\
  entry !! "trace_id" = VStr ∘ TraceID <$> ctx /\
  entry !! "span_id" = VStr ∘ SpanID <$> ctx.

(** ** Sample inputs *)

(** A clock that advances one second per reading, printed in decimal. *)
Definition sample_env : Env :=
  {| time_Now := fun n => 1000000000 * Z.of_nat n; RFC3339 := pretty |}.

Definition sample_state : state :=
  {| next_span := 0; ticks := 0; w := fresh_writer |}.

End GoService.

(* ===================================================================== *)
(** * The traffic generator script                                        *)
(* ===================================================================== *)

Module Traffic.

(** ** Data *)

(** Shell arithmetic is 64-bit signed and wraps. *)
Definition wrap64 (z : Z) : Z := (z + 2 ^ 63) mod 2 ^ 64 - 2 ^ 63.

Definition PYTHON_SERVICE : string := "http://localhost:8001".
Definition GO_SERVICE : string := "http://localhost:8002".
Definition RUST_SERVICE : string := "http://localhost:8003".
Definition NEXTJS_FRONTEND : string := "http://localhost:3001".

(** A curl command line: the options before the URL, and the URL. *)
Record invocation := { options : list string; url : string }.

(** The lines the script prints, without their colour codes. *)
Inductive line :=
| Starting                                      (* the two lines before the loop *)
| Succeeded (service description code : string) (* check mark, HTTP code *)
| Failed (service description code : string)    (* cross mark, HTTP code *)
| UserJourney (title : string)
| Progress (elapsed duration count : Z)
| Completed
| Total (count : Z)                             (* Total requests sent: N *)
| Duration (elapsed : Z)
| Finished.                                     (* the closing lines *)

(** The outside world: the n-th output of [date +%s], the generator value
    behind the n-th expansion of [$RANDOM], and what the n-th run of curl
    prints on its standard output together with its exit status. *)
Record World := {
  date_s : nat -> Z;
  random_source : nat -> Z;
  curl : nat -> invocation -> string * Z
}.

(** The script's variables and what it has done so far. *)
Record state := {
  request_count : Z;
  out : list line;
  issued : list invocation;   (* the curl runs, in order *)
  dates : nat;                (* readings of the clock taken *)
  draws : nat                 (* expansions of $RANDOM *)
}.

Definition initial : state :=
  {| request_count := 0; out := []; issued := []; dates := 0; draws := 0 |}.

(** ** A state monad with the early exit of [set -e] *)

Inductive result (A : Type) :=
| Done (a : A) (s : state)
| Exited (code : Z) (s : state).
Arguments Done {A}.
Arguments Exited {A}.

Definition sh (A : Type) : Type := World -> state -> result A.

#[global] Instance sh_ret : MRet sh := fun A a _ s => Done a s.

#[global] Instance sh_bind : MBind sh := fun A B k m world s =>
  match m world s with
  | Done a s1 => k a world s1
  | Exited code s1 => Exited code s1
  end.

(** A command yields what it wrote on standard output (when that is
    captured) and its exit status. *)
Definition command : Type := sh (string * Z).

(** [c1 || c2]: the second command runs when the first one fails; the
    outputs follow each other and the status is that of the last command
    run. *)
Definition or_list (c1 c2 : command) : command :=
  r1 ← c1;
  if r1.2 =? 0 then mret r1
  else r2 ← c2; mret (r1.1 +:+ r2.1, r2.2).

Definition newline : string := String (ascii_of_nat 10) EmptyString.

(** [echo text] with its output captured. *)
Definition echo_captured (text : string) : command := mret (text +:+ newline, 0).

(** Command substitution drops the trailing newlines of the output. *)
Fixpoint strip_newlines (s : string) : string :=
  match s with
  | EmptyString => EmptyString
  | String c rest =>
      match strip_newlines rest with
      | EmptyString =>
          if Ascii.eqb c (ascii_of_nat 10) then EmptyString
          else String c EmptyString
      | kept => String c kept
      end
  end.

(** [var=$(c)] as a simple command under [set -e]: the value is the captured
    output; a non-zero status of [c] ends the script with that status. *)
Definition assign_subst (c : command) : sh string :=
  fun world s =>
    match c world s with
    | Done (text, st) s1 =>
        if st =? 0 then Done (strip_newlines text) s1 else Exited st s1
    | Exited code s1 => Exited code s1
    end.

Definition echo (l : line) : sh unit :=
  fun _ s =>
    Done tt {| request_count := request_count s; out := out s ++ [l];
               issued := issued s; dates := dates s; draws := draws s |}.

(** [sleep t]: time passes in the world's clock only. The interval is a valid
    one (line 24 computed it), so the command succeeds. *)
Definition sleep : sh unit := mret tt.

(** [date +%s]. *)
Definition date : sh Z :=
  fun world s =>
    Done (date_s world (dates s))
         {| request_count := request_count s; out := out s;
            issued := issued s; dates := S (dates s); draws := draws s |}.

(** [$RANDOM]: the low 15 bits of the generator's value. *)
Definition RANDOM : sh Z :=
  fun world s =>
    Done (Z.land (random_source world (draws s)) 32767)
         {| request_count := request_count s; out := out s;
            issued := issued s; dates := dates s; draws := S (draws s) |}.

Definition run_curl (i : invocation) : command :=
  fun world s =>
    Done (curl world (length (issued s)) i)
         {| request_count := request_count s; out := out s;
            issued := issued s ++ [i]; dates := dates s; draws := draws s |}.

(** ** make_request *)

(** [curl -s -o /dev/null -w "%{http_code}" "$endpoint"]. *)
Definition curl_invocation (endpoint : string) : invocation :=
  {| options := ["-s"; "-o"; "/dev/null"; "-w"; "%{http_code}"];
     url := endpoint |}.

(** The test of line 42. *)
Definition is_success (response_code : string) : bool :=
  String.eqb response_code "200" || String.eqb response_code "500".

Definition make_request (service_name endpoint description : string) : sh unit :=
  response_code ←
    assign_subst (or_list (run_curl (curl_invocation endpoint))
                          (echo_captured "000"));
  if is_success response_code
  then echo (Succeeded service_name description response_code)
  else echo (Failed service_name description response_code).

(** ** user_journey *)

(** [[[ $s == *"sub"* ]]]. *)
Fixpoint contains (sub s : string) : bool :=
  String.prefix sub s ||
  match s with
  | EmptyString => false
  | String _ rest => contains sub rest
  end.

(** [${array[$RANDOM % ${#array[@]}]}]; an index outside the array expands
    to the empty string. *)
Definition random_element (array : list string) : sh string :=
  r ← RANDOM;
  mret (default EmptyString
          (array !! Z.to_nat (Z.rem r (Z.of_nat (length array))))).

Definition user_journey (journey_type : Z) : sh unit :=
  match journey_type with
  | 1 =>
      echo (UserJourney "Loading Dashboard");;
      make_request "Frontend" NEXTJS_FRONTEND "Load homepage";;
      sleep;;
      make_request "Python" (PYTHON_SERVICE +:+ "/") "Fetch Python status";;
      make_request "Go" (GO_SERVICE +:+ "/") "Fetch Go status";;
      make_request "Rust" (RUST_SERVICE +:+ "/") "Fetch Rust status"
  | 2 =>
      echo (UserJourney "Fetching Data");;
      make_request "Python" (PYTHON_SERVICE +:+ "/data") "Fetch Python data";;
      sleep;;
      make_request "Go" (GO_SERVICE +:+ "/data") "Fetch Go data";;
      sleep;;
      make_request "Rust" (RUST_SERVICE +:+ "/data") "Fetch Rust data"
  | 3 =>
      echo (UserJourney "Error Handling");;
      make_request "Python" (PYTHON_SERVICE +:+ "/error") "Trigger Python error"
  | 4 =>
      echo (UserJourney "Python Heavy Load");;
      make_request "Python" (PYTHON_SERVICE +:+ "/") "Python root";;
      make_request "Python" (PYTHON_SERVICE +:+ "/data") "Python data";;
      make_request "Python" (PYTHON_SERVICE +:+ "/data") "Python data again"
  | 5 =>
      echo (UserJourney "Go Heavy Load");;
      make_request "Go" (GO_SERVICE +:+ "/") "Go root";;
      make_request "Go" (GO_SERVICE +:+ "/data") "Go data";;
      make_request "Go" (GO_SERVICE +:+ "/data") "Go data again"
  | 6 =>
      echo (UserJourney "Rust Heavy Load");;
      make_request "Rust" (RUST_SERVICE +:+ "/") "Rust root";;
      make_request "Rust" (RUST_SERVICE +:+ "/data") "Rust data";;
      make_request "Rust" (RUST_SERVICE +:+ "/data") "Rust data again"
  | 7 =>
      random_service ← random_element [PYTHON_SERVICE; GO_SERVICE; RUST_SERVICE];
      random_endpoint ← random_element ["/"; "/data"];
      let service_name :=
        if contains "8001" random_service then "Python"
        else if contains "8002" random_service then "Go"
        else "Rust" in
      make_request service_name (random_service +:+ random_endpoint) "Random call"
  | 8 =>
      echo (UserJourney "Multi-Service Errors");;
      make_request "Go" (GO_SERVICE +:+ "/error") "Trigger Go error";;
      sleep;;
      make_request "Rust" (RUST_SERVICE +:+ "/error") "Trigger Rust error"
  | _ => mret tt
  end.

(** ** The main loop *)

(** The chain of tests on [$random] (lines 149-181): the journey to run and
    the amount added to [request_count]. *)
Definition select_journey (random : Z) : Z * Z :=
  if random <? 25 then (1, 4)
  else if random <? 45 then (2, 3)
  else if random <? 50 then (3, 1)
  else if random <? 60 then (4, 3)
  else if random <? 70 then (5, 3)
  else if random <? 80 then (6, 3)
  else if random <? 85 then (8, 2)
  else (7, 1).

Definition add_requests (n : Z) : sh unit :=
  fun _ s =>
    Done tt {| request_count := wrap64 (request_count s + n); out := out s;
               issued := issued s; dates := dates s; draws := draws s |}.

Definition get_request_count : sh Z := fun _ s => Done (request_count s) s.

(** An integer that [[ ]] can read: one that fits in 64 bits. *)
Definition in_int64 (z : Z) : bool := (- 2 ^ 63 <=? z) && (z <? 2 ^ 63).

(** [[ a -ge b ]] as the condition of an [if]: with an operand outside 64
    bits the test fails with an error, which the [if] takes as false. *)
Definition test_ge (a b : Z) : bool := in_int64 a && in_int64 b && (a >=? b).

(** One pass through the body of [while true]; the result tells whether the
    loop goes on ([false] after [break]). *)
Definition iteration (DURATION start_time : Z) : sh bool :=
  current_time ← date;
  let elapsed := wrap64 (current_time - start_time) in
  if test_ge elapsed DURATION then
    echo Completed;;
    count ← get_request_count;
    echo (Total count);;
    echo (Duration elapsed);;
    mret false
  else
    r ← RANDOM;
    let random := Z.rem r 100 in
    let '(journey, calls) := select_journey random in
    user_journey journey;;
    add_requests calls;;
    count ← get_request_count;
    (if Z.rem count 20 =? 0 then echo (Progress elapsed DURATION count)
     else mret tt);;
    sleep;;
    mret true.

(** The loop, run for at most [fuel] passes: [true] when it was left by
    [break], [false] when it is still running after [fuel] passes. *)
Fixpoint main_loop (fuel : nat) (DURATION start_time : Z) : sh bool :=
  match fuel with
  | O => mret false
  | S fuel' =>
      again ← iteration DURATION start_time;
      if again : bool then main_loop fuel' DURATION start_time else mret true
  end.

(** Lines 125-196: the script from "Starting traffic generation" on, with
    [request_count] starting at 0. The handler of the INT signal is not
    part of the model. *)
Definition traffic (fuel : nat) (DURATION : Z) : sh bool :=
  echo Starting;;
  start_time ← date;
  left ← main_loop fuel DURATION start_time;
  if left : bool then echo Finished;; mret true else mret false.

(** ** The weight table, in the specification's words *)

(** (journey, weight in percent), in the order the thresholds are tested. *)
Definition journey_weights : list (Z * Z) :=
  [ (1, 25)   (* dashboard load *);
    (2, 20)   (* data fetch *);
    (3, 5)    (* single error *);
    (4, 10)   (* Python heavy load *);
    (5, 10)   (* Go heavy load *);
    (6, 10)   (* Rust heavy load *);
    (8, 5)    (* multi-service error *);
    (7, 15)   (* random single call *) ].

(** Weighted choice: the first entry whose cumulated weight exceeds [r]. *)
Fixpoint weighted_pick (table : list (Z * Z)) (r : Z) : option Z :=
  match table with
  | [] => None
  | (journey, weight) :: rest =>
      if r <? weight then Some journey else weighted_pick rest (r - weight)
  end.

Definition total_weight (table : list (Z * Z)) : Z :=
  foldr (fun entry acc => entry.2 + acc) 0 table.

(** How many of the hundred values of [$random] select [journey]. *)
Definition share (journey : Z) : nat :=
  length (List.filter (fun r => (select_journey r).1 =? journey) (seqZ 0 100)).

(** [n] consecutive integers from [from] on. *)
Fixpoint upto (n : nat) (from : Z) : list Z :=
  match n with
  | O => []
  | S n' => from :: upto n' (from + 1)
  end.

(** How many of the 32768 values of [$RANDOM] select [journey]. *)
Definition RANDOM_share (journey : Z) : Z :=
  Z.of_nat (length (List.filter
                      (fun r => (select_journey (Z.rem (Z.land r 32767) 100)).1
                                =? journey)
                      (upto (Z.to_nat 32768) 0))).

(** The number of HTTP calls of each journey, as the claim lists them. *)
Definition calls_per_journey : list (Z * nat) :=
  [(1, 4%nat); (2, 3%nat); (4, 3%nat); (5, 3%nat); (6, 3%nat);
   (8, 2%nat); (3, 1%nat); (7, 1%nat)].

(** The options of curl that bound the time of a transfer. *)
Definition timeout_options : list string :=
  ["-m"; "--max-time"; "--connect-timeout"].

Definition applies_timeout (i : invocation) : bool :=
  existsb (fun o => bool_decide (o ∈ timeout_options)) (options i).

(** ** Observations *)

(** The value [make_request] stores in [response_code] after a run of curl
    that printed [r.1] and exited with status [r.2]. *)
Definition recorded_code (r : string * Z) : string :=
  strip_newlines (if r.2 =? 0 then r.1 else r.1 +:+ ("000" +:+ newline)).

(** [c] runs to its end whatever the world does, runs curl [n] times and
    leaves [request_count] alone. *)
Definition performs {A} (n : nat) (c : sh A) : Prop :=
  forall world s, exists a s',
    c world s = Done a s' /\
    length (issued s') = (length (issued s) + n)%nat /\
    request_count s' = request_count s.

(** [request_count] is the number of curl runs so far, in 64-bit
    arithmetic. *)
Definition counts_requests (s : state) : Prop :=
  request_count s = wrap64 (Z.of_nat (length (issued s))).

(** ** Further observations *)

(** How many of the 32768 values of [$RANDOM] leave the remainder [k] when
    divided by 100. *)
Definition residue_count (k : Z) : Z :=
  Z.of_nat (length (List.filter (fun r => Z.rem (Z.land r 32767) 100 =? k)
                                (upto (Z.to_nat 32768) 0))).

(** [$RANDOM % 100] is uniform on [0,100) for a [$RANDOM] uniform on its
    32768 values: every remainder is left by the same number of values. *)
Definition uniform_remainder : Prop :=
  forall k k' : Z, 0 <= k < 100 -> 0 <= k' < 100 ->
    residue_count k = residue_count k'.

(** The state after the clock reading and the expansion of [$RANDOM] at the
    head of a pass. *)
Definition drawn (s : state) : state :=
  {| request_count := request_count s; out := out s; issued := issued s;
     dates := S (dates s); draws := S (draws s) |}.

(** The state at the end of a pass that started in [s], ran a journey that
    ended in [s1] and made [calls] calls: the count is added and the progress
    line printed when the count is a multiple of 20. *)
Definition counted (DURATION elapsed calls : Z) (s1 : state) : state :=
  let count := wrap64 (request_count s1 + calls) in
  {| request_count := count;
     out := out s1 ++ (if Z.rem count 20 =? 0
                       then [Progress elapsed DURATION count] else []);
     issued := issued s1; dates := dates s1; draws := draws s1 |}.

Definition is_progress (l : line) : bool :=
  match l with Progress _ _ _ => true | _ => false end.

(** [c] runs to its end whatever the world does; it runs curl [n] times,
    reads no clock, leaves [request_count] alone and prints no progress
    line. *)
Definition journey_effect {A} (n : nat) (c : sh A) : Prop :=
  forall world s, exists a s' lines,
    c world s = Done a s' /\
    length (issued s') = (length (issued s) + n)%nat /\
    request_count s' = request_count s /\
    dates s' = dates s /\
    out s' = out s ++ lines /\
    Forall (fun l => is_progress l = false) lines.

(** A progress line shows the run's duration and a count that is a multiple
    of 20. *)
Definition progress_ok (DURATION : Z) (l : line) : Prop :=
  match l with
  | Progress _ d count => d = DURATION /\ Z.rem count 20 = 0
  | _ => True
  end.

(** The URLs of the journeys with fixed steps, in the order of the calls. *)
Definition journey_urls : list (Z * list string) :=
  [ (1, [NEXTJS_FRONTEND; PYTHON_SERVICE +:+ "/"; GO_SERVICE +:+ "/";
         RUST_SERVICE +:+ "/"]);
    (2, [PYTHON_SERVICE +:+ "/data"; GO_SERVICE +:+ "/data";
         RUST_SERVICE +:+ "/data"]);
    (3, [PYTHON_SERVICE +:+ "/error"]);
    (4, [PYTHON_SERVICE +:+ "/"; PYTHON_SERVICE +:+ "/data";
         PYTHON_SERVICE +:+ "/data"]);
    (5, [GO_SERVICE +:+ "/"; GO_SERVICE +:+ "/data"; GO_SERVICE +:+ "/data"]);
    (6, [RUST_SERVICE +:+ "/"; RUST_SERVICE +:+ "/data";
         RUST_SERVICE +:+ "/data"]);
    (8, [GO_SERVICE +:+ "/error"; RUST_SERVICE +:+ "/error"]) ].

(** [c] runs to its end whatever the world does, runs curl on [urls], in
    this order, and prints [k] lines. *)
Definition issues {A} (urls : list string) (k : nat) (c : sh A) : Prop :=
  forall world s, exists a s',
    c world s = Done a s' /\
    issued s' = issued s ++ map curl_invocation urls /\
    length (out s') = (length (out s) + k)%nat.

(** The services the random call chooses from, with the name it prints. *)
Definition random_services : list (string * string) :=
  [("Python", PYTHON_SERVICE); ("Go", GO_SERVICE); ("Rust", RUST_SERVICE)].

(** The line [make_request] prints for a recorded status. *)
Definition verdict (service description code : string) : line :=
  if is_success code then Succeeded service description code
  else Failed service description code.

(** ** Sample inputs *)

(** A world whose clock advances one second per reading, whose random source
    counts up from 30, and where every third run of curl cannot connect. *)
Definition sample_world : World :=
  {| date_s := fun n => 1700000000 + Z.of_nat n;
     random_source := fun n => 30 + 17 * Z.of_nat n;
     curl := fun n _ =>
       if (n mod 3 =? 2)%nat then ("000", 7) else ("200", 0) |}.

(** The state a computation ends in. *)
Definition final_state {A} (r : result A) : state :=
  match r with Done _ s => s | Exited _ s => s end.

(** A run of three seconds in the sample world. *)
Definition sample_final : state :=
  final_state (traffic 10 3 sample_world initial).

End Traffic.

(* ===================================================================== *)
(** * The browser telemetry initialiser                                   *)
(* ===================================================================== *)

Module Telemetry.

(** The calls into the OpenTelemetry SDK made inside the [try] block, in
    program order. Any of them may throw. *)
Inductive sdk_call :=
| MergeResource                      (* Resource.default().merge(new Resource(..)) *)
| NewWebTracerProvider
| NewOTLPTraceExporter
| NewBatchSpanProcessor
| AddSpanProcessor
| NewZoneContextManager
| RegisterProvider                   (* provider.register(..) *)
| NewFetchInstrumentation
| NewDocumentLoadInstrumentation
| NewUserInteractionInstrumentation
| RegisterInstrumentations.

#[global] Instance sdk_call_eq_dec : EqDecision sdk_call.
Proof. solve_decision. Defined.

(** What one call of the function leaves behind. *)
Inductive effect :=
| Sdk (c : sdk_call)                 (* the SDK call completed *)
| ConsoleLog (message : string)
| ConsoleError (message : string).

#[global] Instance effect_eq_dec : EqDecision effect.
Proof. solve_decision. Defined.

(** The module-level flag and the effects so far, oldest first. *)
Record state := {
  isInitialized : bool;
  effects : list effect
}.

(** The state of a freshly loaded module: [let isInitialized = false]. *)
Definition loaded : state := {| isInitialized := false; effects := [] |}.

(** The circumstances of one call: whether [window] is defined, and which
    SDK calls throw. *)
Record Call := {
  window_defined : bool;
  throws : sdk_call -> bool
}.

(** ** Computations that may throw *)

Inductive outcome (A : Type) :=
| Returned (a : A) (s : state)
| Thrown (s : state).
Arguments Returned {A}.
Arguments Thrown {A}.

Definition js (A : Type) : Type := Call -> state -> outcome A.

#[global] Instance js_ret : MRet js := fun A a _ s => Returned a s.

#[global] Instance js_bind : MBind js := fun A B k m call s =>
  match m call s with
  | Returned a s1 => k a call s1
  | Thrown s1 => Thrown s1
  end.

Definition record (e : effect) (s : state) : state :=
  {| isInitialized := isInitialized s; effects := effects s ++ [e] |}.

(** An SDK call: it throws, or it completes and is recorded. *)
Definition sdk (c : sdk_call) : js unit :=
  fun call s => if throws call c then Thrown s else Returned tt (record (Sdk c) s).

Definition console_log (message : string) : js unit :=
  fun _ s => Returned tt (record (ConsoleLog message) s).

Definition set_isInitialized (b : bool) : js unit :=
  fun _ s => Returned tt {| isInitialized := b; effects := effects s |}.

Definition already_message : string := "Telemetry already initialized".
Definition success_message : string := "Browser OpenTelemetry initialized successfully".
Definition failure_message : string := "Failed to initialize OpenTelemetry:".

(** The body of the [try] block. *)
Definition try_block : js unit :=
  sdk MergeResource;;
  sdk NewWebTracerProvider;;
  sdk NewOTLPTraceExporter;;
  sdk NewBatchSpanProcessor;;
  sdk AddSpanProcessor;;
  sdk NewZoneContextManager;;
  sdk RegisterProvider;;
  sdk NewFetchInstrumentation;;
  sdk NewDocumentLoadInstrumentation;;
  sdk NewUserInteractionInstrumentation;;
  sdk RegisterInstrumentations;;
  set_isInitialized true;;
  console_log success_message.

Definition initializeTelemetry (call : Call) (s : state) : state :=
  (* Only run on client side *)
  if negb (window_defined call) then s
  (* Prevent double initialization *)
  else if isInitialized s then record (ConsoleLog already_message) s
  else
    match try_block call s with
    | Returned _ s' => s'
    | Thrown s' => record (ConsoleError failure_message) s'
    end.

(** A sequence of calls made by the process, oldest first. *)
Definition calls_from (s : state) (calls : list Call) : state :=
  foldl (fun s call => initializeTelemetry call s) s calls.

(** ** Observations *)

(** The SDK calls completed so far. *)
Definition sdk_calls (s : state) : list sdk_call :=
  omap (fun e => match e with Sdk c => Some c | _ => None end) (effects s).

(** The SDK calls of one complete initialisation, in program order. *)
Definition all_sdk_calls : list sdk_call :=
  [MergeResource; NewWebTracerProvider; NewOTLPTraceExporter;
   NewBatchSpanProcessor; AddSpanProcessor; NewZoneContextManager;
   RegisterProvider; NewFetchInstrumentation; NewDocumentLoadInstrumentation;
   NewUserInteractionInstrumentation; RegisterInstrumentations].

(** How many times the initialisation ran to its end. *)
Definition completed_initializations (s : state) : nat :=
  length (List.filter (fun e => bool_decide (e = ConsoleLog success_message))
                      (effects s)).

(** ** Further observations *)

(** The console messages so far. *)
Definition console (s : state) : list effect :=
  List.filter (fun e => match e with Sdk _ => false | _ => true end) (effects s).

(** The calls made in the browser among [calls]. *)
Definition client_side (calls : list Call) : list Call :=
  List.filter window_defined calls.

(** The SDK calls of [cs] that complete before the first one that throws. *)
Fixpoint completed_before (call : Call) (cs : list sdk_call) : list sdk_call :=
  match cs with
  | [] => []
  | c :: rest => if throws call c then [] else c :: completed_before call rest
  end.

(** No SDK call throws. *)
Definition succeeds (call : Call) : bool :=
  forallb (fun c => negb (throws call c)) all_sdk_calls.

(** The flag tells whether the initialisation ran to its end: it is unset
    and no initialisation completed, or it is set, exactly one did, and the
    SDK calls made last are those of a complete initialisation. *)
Definition flag_tells (s : state) : Prop :=
  (isInitialized s = false /\ completed_initializations s = 0%nat) \/
  (isInitialized s = true /\ completed_initializations s = 1%nat /\
   exists before, sdk_calls s = before ++ all_sdk_calls).

(** The initialisation runs to its end at most once, and not at all while
    the flag is unset. *)
Definition at_most_once (s : state) : Prop :=
  (completed_initializations s <= 1)%nat /\
  (isInitialized s = false -> completed_initializations s = 0%nat).

(** ** Sample inputs *)

Definition in_browser : Call :=
  {| window_defined := true; throws := fun _ => false |}.

Definition on_server : Call :=
  {| window_defined := false; throws := fun _ => false |}.

Definition exporter_fails : Call :=
  {| window_defined := true;
     throws := fun c => bool_decide (c = NewOTLPTraceExporter) |}.

End Telemetry.

(* ===================================================================== *)
(** * Start-up of the Go service                                          *)
(* ===================================================================== *)

Module GoStartup.

(** The outside world of [main]: the environment variable, the error (if
    any) each SDK constructor returns, and the error [ListenAndServe] returns
    when the server stops ([None] is a nil error). *)
Record World := {
  OTEL_EXPORTER_OTLP_ENDPOINT : string;       (* empty when unset *)
  otlptracegrpc_New : string -> option string;      (* by endpoint *)
  otlpmetricgrpc_New : string -> option string;     (* by endpoint *)
  Int64Counter : string -> option string;           (* by instrument name *)
  Float64Histogram : string -> option string;       (* by instrument name *)
  ListenAndServe : string -> option string          (* by address *)
}.

Inductive provider := Tracer | Meter.

Inductive log_line :=
| Fatal (prefix : string) (err : string)    (* log.Fatalf / log.Fatal *)
| Println (text : string).

(** The package-level variables, the providers registered with [otel], and
    what the process has done. A provider is named by the endpoint its
    exporter was built for, an instrument by its name. *)
Record Process := {
  TracerProvider : option string;       (* otel.SetTracerProvider *)
  tracer : option string;
  MeterProvider : option string;        (* otel.SetMeterProvider *)
  meter : option string;
  requestCounter : option string;
  requestDuration : option string;
  log : list log_line;
  shut_down : list provider;            (* Shutdown calls, in order *)
  served : option string                (* address handed to ListenAndServe *)
}.

Definition started : Process :=
  {| TracerProvider := None; tracer := None; MeterProvider := None;
     meter := None; requestCounter := None; requestDuration := None;
     log := []; shut_down := []; served := None |}.

(** How [main] ends: by returning, or by [os.Exit] inside [log.Fatal]. *)
Inductive ending := Returned | Exited (code : Z).

Definition default_endpoint : string := "otel-collector:4317".

(** The first four lines of [initTracer] and of [initMeter]. *)
Definition endpoint (world : World) : string :=
  if String.eqb (OTEL_EXPORTER_OTLP_ENDPOINT world) "" then default_endpoint
  else OTEL_EXPORTER_OTLP_ENDPOINT world.

(** [initTracer]: the error returned, and the process afterwards. *)
Definition initTracer (world : World) (p : Process) : option string * Process :=
  match otlptracegrpc_New world (endpoint world) with
  | Some err => (Some err, p)
  | None =>
      (None,
       {| TracerProvider := Some (endpoint world);
          tracer := Some "go-service";
          MeterProvider := MeterProvider p; meter := meter p;
          requestCounter := requestCounter p;
          requestDuration := requestDuration p;
          log := log p; shut_down := shut_down p; served := served p |})
  end.

(** [initMeter]. An instrument variable is left unset when its constructor
    returns an error. *)
Definition initMeter (world : World) (p : Process) : option string * Process :=
  match otlpmetricgrpc_New world (endpoint world) with
  | Some err => (Some err, p)
  | None =>
      let p1 :=
        {| TracerProvider := TracerProvider p; tracer := tracer p;
           MeterProvider := Some (endpoint world);
           meter := Some "go-service";
           requestCounter := requestCounter p;
           requestDuration := requestDuration p;
           log := log p; shut_down := shut_down p; served := served p |} in
      match Int64Counter world GoService.requestCounter with
      | Some err => (Some err, p1)
      | None =>
          let p2 :=
            {| TracerProvider := TracerProvider p1; tracer := tracer p1;
               MeterProvider := MeterProvider p1; meter := meter p1;
               requestCounter := Some GoService.requestCounter;
               requestDuration := requestDuration p1;
               log := log p1; shut_down := shut_down p1; served := served p1 |} in
          match Float64Histogram world GoService.requestDuration with
          | Some err => (Some err, p2)
          | None =>
              (None,
               {| TracerProvider := TracerProvider p2; tracer := tracer p2;
                  MeterProvider := MeterProvider p2; meter := meter p2;
                  requestCounter := requestCounter p2;
                  requestDuration := Some GoService.requestDuration;
                  log := log p2; shut_down := shut_down p2;
                  served := served p2 |})
          end
      end
  end.

Definition write_log (l : log_line) (p : Process) : Process :=
  {| TracerProvider := TracerProvider p; tracer := tracer p;
     MeterProvider := MeterProvider p; meter := meter p;
     requestCounter := requestCounter p; requestDuration := requestDuration p;
     log := log p ++ [l]; shut_down := shut_down p; served := served p |}.

(** [tp.Shutdown(ctx)] / [mp.Shutdown(ctx)]. *)
Definition Shutdown (which : provider) (p : Process) : Process :=
  {| TracerProvider := TracerProvider p; tracer := tracer p;
     MeterProvider := MeterProvider p; meter := meter p;
     requestCounter := requestCounter p; requestDuration := requestDuration p;
     log := log p; shut_down := shut_down p ++ [which]; served := served p |}.

Definition serve_on (addr : string) (p : Process) : Process :=
  {| TracerProvider := TracerProvider p; tracer := tracer p;
     MeterProvider := MeterProvider p; meter := meter p;
     requestCounter := requestCounter p; requestDuration := requestDuration p;
     log := log p; shut_down := shut_down p; served := Some addr |}.

(** [log.Fatalf]: the line is written and the process exits with status 1;
    deferred calls do not run. *)
Definition log_Fatal (prefix err : string) (p : Process) : Process * ending :=
  (write_log (Fatal prefix err) p, Exited 1).

(** [main]. The deferred calls run, last first, when [main] returns. *)
Definition main (world : World) : Process * ending :=
  match initTracer world started with
  | (Some err, p) => log_Fatal "Failed to initialize tracer: " err p
  | (None, p) =>
      (* defer tp.Shutdown(ctx) *)
      match initMeter world p with
      | (Some err, p) => log_Fatal "Failed to initialize meter: " err p
      | (None, p) =>
          (* defer mp.Shutdown(ctx) *)
          let p := write_log (Println "Go service starting on :8000") p in
          let p := serve_on ":8000" p in
          match ListenAndServe world ":8000" with
          | Some err => log_Fatal "" err p
          | None => (Shutdown Tracer (Shutdown Meter p), Returned)
          end
      end
  end.

(** All four SDK constructors succeed in [world]. *)
Definition setup_succeeds (world : World) : Prop :=
  otlptracegrpc_New world (endpoint world) = None /\
  otlpmetricgrpc_New world (endpoint world) = None /\
  Int64Counter world GoService.requestCounter = None /\
  Float64Histogram world GoService.requestDuration = None.

(** ** Sample inputs *)

(** No endpoint configured; the collector is reachable for traces, the
    metrics exporter cannot be built. *)
Definition metrics_exporter_down : World :=
  {| OTEL_EXPORTER_OTLP_ENDPOINT := "";
     otlptracegrpc_New := fun _ => None;
     otlpmetricgrpc_New := fun _ => Some "connection refused";
     Int64Counter := fun _ => None;
     Float64Histogram := fun _ => None;
     ListenAndServe := fun _ => Some "http: Server closed" |}.

(** Everything works and the server stops with an error, as
    [ListenAndServe] does. *)
Definition healthy : World :=
  {| OTEL_EXPORTER_OTLP_ENDPOINT := "collector.internal:4317";
     otlptracegrpc_New := fun _ => None;
     otlpmetricgrpc_New := fun _ => None;
     Int64Counter := fun _ => None;
     Float64Histogram := fun _ => None;
     ListenAndServe := fun _ => Some "http: Server closed" |}.

End GoStartup.

(* ===================================================================== *)
(** * The simplified telemetry initialiser                                *)
(* ===================================================================== *)

Module ManualTelemetry.

Definition message : string :=
  "Browser telemetry initialized (manual tracing only)".

(** [initializeTelemetry] of the variant without auto-instrumentation: it has
    no flag and touches the console only. The state is the console. *)
Definition initializeTelemetry (window_defined : bool) (console : list string)
  : list string :=
  (* Only run on client side *)
  if negb window_defined then console
  else console ++ [message].

(** A sequence of calls, oldest first, each with its [window] test. *)
Definition calls_from (console : list string) (calls : list bool) : list string :=
  foldl (fun console w => initializeTelemetry w console) console calls.

End ManualTelemetry.

(* ===================================================================== *)
(** * The front page                                                      *)
(* ===================================================================== *)

Module Frontend.

Section Page.

(** The values [response.json()] yields, with JavaScript's [null]. *)
Variable any : Type.
Variable null : any.

(** What a [fetch] followed by [response.json()] comes to: [fetch] rejects,
    the body is not JSON, or both resolve. *)
Inductive fetch_result :=
| NetworkError
| InvalidJSON
| Json (data : any).

(** The component's state that the two handlers touch, the URLs requested
    and the console errors, oldest first. *)
Record state := {
  pythonData : any;
  goData : any;
  rustData : any;
  loading : bool;
  requests : list string;
  errors : list string
}.

(** [useState(null)] three times, [useState(false)]. *)
Definition initial : state :=
  {| pythonData := null; goData := null; rustData := null; loading := false;
     requests := []; errors := [] |}.

Definition setLoading (b : bool) (s : state) : state :=
  {| pythonData := pythonData s; goData := goData s; rustData := rustData s;
     loading := b; requests := requests s; errors := errors s |}.

Definition setPythonData (data : any) (s : state) : state :=
  {| pythonData := data; goData := goData s; rustData := rustData s;
     loading := loading s; requests := requests s; errors := errors s |}.

Definition setGoData (data : any) (s : state) : state :=
  {| pythonData := pythonData s; goData := data; rustData := rustData s;
     loading := loading s; requests := requests s; errors := errors s |}.

Definition setRustData (data : any) (s : state) : state :=
  {| pythonData := pythonData s; goData := goData s; rustData := data;
     loading := loading s; requests := requests s; errors := errors s |}.

Definition console_error (message : string) (s : state) : state :=
  {| pythonData := pythonData s; goData := goData s; rustData := rustData s;
     loading := loading s; requests := requests s;
     errors := errors s ++ [message] |}.

(** The n-th request of the page and its outcome. *)
Definition World : Type := nat -> string -> fetch_result.

Definition fetch (world : World) (url : string) (s : state) : fetch_result * state :=
  (world (length (requests s)) url,
   {| pythonData := pythonData s; goData := goData s; rustData := rustData s;
      loading := loading s; requests := requests s ++ [url];
      errors := errors s |}).

(** [endpoint.includes(sub)]. *)
Definition includes (endpoint sub : string) : bool := Traffic.contains sub endpoint.

Definition fetchFromService (world : World) (service endpoint : string)
    (s : state) : state :=
  let s := setLoading true s in
  let s :=
    (* try *)
    let url := endpoint +:+ (if String.eqb service "data" then "/data" else "/") in
    let '(response, s) := fetch world url s in
    match response with
    | Json data =>
        if includes endpoint "8001" then setPythonData data s
        else if includes endpoint "8002" then setGoData data s
        else if includes endpoint "8003" then setRustData data s
        else s
    | NetworkError | InvalidJSON =>
        (* catch *)
        console_error ("Error fetching from " +:+ endpoint +:+ ":") s
    end in
  (* finally *)
  setLoading false s.

(** [triggerError]: the response is not read; only a rejected [fetch] is
    caught. *)
Definition triggerError (world : World) (endpoint : string) (s : state) : state :=
  let '(response, s) := fetch world (endpoint +:+ "/error") s in
  match response with
  | NetworkError => console_error "Error triggered:" s
  | InvalidJSON | Json _ => s
  end.

(** The nine buttons of the page: three per service. *)
Inductive service := Python | Go | Rust.

Inductive button :=
| FetchRoot (svc : service)
| FetchData (svc : service)
| TriggerError (svc : service).

Definition endpoint_of (svc : service) : string :=
  match svc with
  | Python => "http://localhost:8001"
  | Go => "http://localhost:8002"
  | Rust => "http://localhost:8003"
  end.

(** The [onClick] handlers. *)
Definition click (world : World) (b : button) (s : state) : state :=
  match b with
  | FetchRoot svc => fetchFromService world "root" (endpoint_of svc) s
  | FetchData svc => fetchFromService world "data" (endpoint_of svc) s
  | TriggerError svc => triggerError world (endpoint_of svc) s
  end.

(** Clicks handled one after the other, oldest first. *)
Definition clicks (world : World) (bs : list button) (s : state) : state :=
  foldl (fun s b => click world b s) s bs.

(** The slot of the state that shows the data of [svc]. *)
Definition shown (svc : service) (s : state) : any :=
  match svc with
  | Python => pythonData s
  | Go => goData s
  | Rust => rustData s
  end.

(** [data] is still [null], or it is what a request to the root or data
    endpoint of [svc] returned. *)
Definition comes_from (world : World) (svc : service) (data : any) : Prop :=
  data = null \/
  exists n url,
    (url = endpoint_of svc +:+ "/" \/ url = endpoint_of svc +:+ "/data") /\
    world n url = Json data.

End Page.

Arguments NetworkError {any}.
Arguments InvalidJSON {any}.
Arguments Json {any}.
Arguments pythonData {any}.
Arguments goData {any}.
Arguments rustData {any}.
Arguments loading {any}.
Arguments requests {any}.
Arguments errors {any}.
Arguments initial {any}.
Arguments fetchFromService {any}.
Arguments triggerError {any}.
Arguments click {any}.
Arguments clicks {any}.
Arguments shown {any}.
Arguments comes_from {any}.

(** ** Sample inputs *)

(** The Go service answers with the number of the request, the Rust service
    is down, the Python service sends something that is not JSON. *)
Definition sample_world : World Z :=
  fun n url =>
    if Traffic.contains "8002" url then Json (Z.of_nat n)
    else if Traffic.contains "8003" url then NetworkError
    else InvalidJSON.

End Frontend.

(* ===================================================================== *)
(** * Properties of the Go service                                        *)
(* ===================================================================== *)

Section GoServiceProperties.
Import GoService.

Implicit Types (env : Env) (r : Request) (s : state).

(** *** What each handler emits, in order *)

Lemma rootHandler_events env r s :
  emitted (rootHandler r env s) =
  [ SpanStart (next_span s) "root_handler";
    SpanSetAttributes (next_span s)
      [attribute_String "http.method" "GET"; attribute_String "http.route" "/"];
    LogLine (log_entry (RFC3339 env (time_Now env (S (ticks s)))) (Context r)
               "INFO" "Processing root request" ∅);
    CounterAdd requestCounter 1 (route_labels "/");
    HistogramRecord requestDuration
      (time_Now env (3 + ticks s)%nat - time_Now env (ticks s)) (route_labels "/");
    SpanEnd (next_span s) ].
Proof. reflexivity. Qed.

Lemma dataHandler_events env r s :
  emitted (dataHandler r env s) =
  [ SpanStart (next_span s) "get_data_handler";
    SpanSetAttributes (next_span s)
      [attribute_String "http.method" "GET"; attribute_String "http.route" "/data"];
    LogLine (log_entry (RFC3339 env (time_Now env (S (ticks s)))) (Context r)
               "INFO" "Fetching data" ∅);
    SpanStart (S (next_span s)) "database_query";
    SpanEnd (S (next_span s));
    LogLine (log_entry (RFC3339 env (time_Now env (2 + ticks s)%nat)) (Context r)
               "INFO" "Retrieved items" (<["item_count" := VInt 10]> ∅));
    CounterAdd requestCounter 1 (route_labels "/data");
    HistogramRecord requestDuration
      (time_Now env (3 + ticks s)%nat - time_Now env (ticks s))
      (route_labels "/data");
    SpanEnd (next_span s) ].
Proof. reflexivity. Qed.

Lemma errorHandler_events env r s :
  emitted (errorHandler r env s) =
  [ SpanStart (next_span s) "error_handler";
    SpanSetAttributes (next_span s)
      [attribute_String "http.method" "GET";
       attribute_String "http.route" "/error";
       attribute_Bool "error" true];
    LogLine (log_entry (RFC3339 env (time_Now env (ticks s))) (Context r)
               "ERROR" "Simulated error occurred"
               (<["error_type" := VStr "SimulatedError"]> ∅));
    CounterAdd requestCounter 1
      (<["status" := AString "error"]> (route_labels "/error"));
    SpanEnd (next_span s) ].
Proof. reflexivity. Qed.

(** The mux sends the three documented paths to their handlers, behind the
    CORS wrapper that only touches the response header. *)
Lemma serve_routes env ctx s :
  emitted (serve (GET "/" ctx) env s) = emitted (rootHandler (GET "/" ctx) env s) /\
  emitted (serve (GET "/data" ctx) env s) = emitted (dataHandler (GET "/data" ctx) env s) /\
  emitted (serve (GET "/error" ctx) env s) = emitted (errorHandler (GET "/error" ctx) env s).
Proof. repeat split; reflexivity. Qed.

Lemma succ_neq_eqb (n : nat) : (S n =? n)%nat = false /\ (n =? S n)%nat = false.
Proof. split; apply Nat.eqb_neq; lia. Qed.

(** Closes [all_finalized] goals on an explicit event list. *)
Ltac finalized :=
  unfold all_finalized, count; cbn -[Nat.eqb];
  repeat (constructor; cbn -[Nat.eqb]);
  rewrite ?Nat.eqb_refl, ?(proj1 (succ_neq_eqb _)), ?(proj2 (succ_neq_eqb _));
  reflexivity.

(** The error handler takes no start time and records no duration: its only
    metric sample is the counter increment. *)
Lemma errorHandler_no_histogram env r s :
  count is_histogram (emitted (errorHandler r env s)) = 0%nat.
Proof. rewrite errorHandler_events. reflexivity. Qed.

(** C1, as stated, fails: the data handler opens two spans (the handler span
    and the simulated database query), and the error handler records no
    histogram observation, so neither request's telemetry satisfies the
    contract. *)
Lemma instrumentation_contract_fails :
  length (spans_started
            (emitted (dataHandler (GET "/data" None) sample_env sample_state)))
    = 2%nat /\
  ~ instrumentation_contract
      (emitted (dataHandler (GET "/data" None) sample_env sample_state)) /\
  ~ instrumentation_contract
      (emitted (errorHandler (GET "/error" None) sample_env sample_state)).
Proof.
  split; [reflexivity|]. split.
  - intros [Hone _]. rewrite dataHandler_events in Hone. cbn in Hone. lia.
  - intros (_ & _ & _ & _ & Hhist).
    rewrite errorHandler_no_histogram in Hhist. lia.
Qed.

(** C1 (amended): for every request a handler serves, every span it creates
    is finalized exactly once, and exactly one counter increment is recorded.
    The root and error handlers create one span and emit one log record; the
    data handler creates two spans (handler and database query) and emits two
    log records. The root and data handlers record exactly one histogram
    observation. *)
Theorem handler_telemetry_per_request env r s :
  let root := emitted (rootHandler r env s) in
  let data := emitted (dataHandler r env s) in
  let err := emitted (errorHandler r env s) in
  (spans_started root = [next_span s] /\ all_finalized root /\
   count is_log root = 1%nat /\
   count is_counter_add root = 1%nat /\ count is_histogram root = 1%nat) /\
  (spans_started data = [next_span s; S (next_span s)] /\ all_finalized data /\
   count is_log data = 2%nat /\
   count is_counter_add data = 1%nat /\ count is_histogram data = 1%nat) /\
  (spans_started err = [next_span s] /\ all_finalized err /\
   count is_log err = 1%nat /\ count is_counter_add err = 1%nat).
Proof.
  cbv zeta.
  rewrite rootHandler_events, dataHandler_events, errorHandler_events.
  repeat split; try reflexivity; finalized.
Qed.

(** C3: a GET on [/error] is answered with status 500 and the JSON object
    with the single key "error"; the handler creates and finalizes one span,
    emits one log record (level ERROR, carrying the request's trace context
    when there is one) and records one counter increment, labelled
    status=error. *)
Theorem error_endpoint_response_and_telemetry env ctx s :
  let res := serve (GET "/error" ctx) env s in
  status (response res) = Some StatusInternalServerError /\
  StatusInternalServerError = 500 /\
  body (response res) = [VMap (<["error" := VStr "This is a simulated error"]> ∅)] /\
  header (response res) !! "Content-Type" = Some "application/json" /\
  spans_started (emitted res) = [next_span s] /\
  all_finalized (emitted res) /\
  (exists entry, log_entries (emitted res) = [entry] /\
     entry !! "level" = Some (VStr "ERROR") /\
     entry !! "error_type" = Some (VStr "SimulatedError") /\
     entry !! "trace_id" = VStr ∘ TraceID <$> ctx /\
     entry !! "span_id" = VStr ∘ SpanID <$> ctx) /\
  counter_labels (emitted res) =
    [<["status" := AString "error"]> (route_labels "/error")].
Proof.
  cbv zeta.
  destruct (serve_routes env ctx s) as (_ & _ & ->).
  rewrite errorHandler_events.
  repeat split; try reflexivity; try finalized.
  eexists; split; [reflexivity|].
  destruct ctx; repeat split; reflexivity.
Qed.

(** C4: a GET on [/data] is answered with status 200 and a JSON object whose
    "data" is the list of the ten items id 0..9 / value item-0..item-9 and
    whose "count" is 10; the handler records exactly one histogram
    observation, labelled endpoint=/data, and emits a log record whose
    "item_count" is 10. *)
Theorem data_endpoint_response_and_telemetry env ctx s :
  let res := serve (GET "/data" ctx) env s in
  status (response res) = Some 200 /\
  body (response res) =
    [VMap (<["data" := VList ten_items]> (<["count" := VInt 10]> ∅))] /\
  length ten_items = 10%nat /\
  (exists l, histogram_labels (emitted res) = [l] /\
     l !! "endpoint" = Some (AString "/data")) /\
  (exists entry, entry ∈ log_entries (emitted res) /\
     entry !! "item_count" = Some (VInt 10)).
Proof.
  cbv zeta.
  destruct (serve_routes env ctx s) as (_ & -> & _).
  rewrite dataHandler_events.
  repeat split; try reflexivity.
  - eexists; split; reflexivity.
  - eexists; split.
    + cbn. apply list_elem_of_further, list_elem_of_here.
    + destruct ctx; reflexivity.
Qed.

(** C6, as stated, fails on the root endpoint: neither of its two metric
    samples carries a status label. *)
Lemma root_metrics_lack_status_label :
  ~ carry_labels ["method"; "endpoint"; "status"]
      (emitted (rootHandler (GET "/" None) sample_env sample_state)).
Proof.
  rewrite rootHandler_events. unfold carry_labels. cbn.
  intros H. apply Forall_cons_1 in H as [H _].
  apply Forall_cons_1 in H as [_ H]. apply Forall_cons_1 in H as [_ H].
  apply Forall_cons_1 in H as [[x Hx] _]. vm_compute in Hx. discriminate.
Qed.

(** C6 (amended): for every request, the counter increment and the
    histogram observation of the root and data handlers, and the counter
    increment of the error handler, each carry the labels method (GET) and
    endpoint (the handler's route). A status label is carried by the error
    handler's counter increment only (status=error); the samples of the root
    and data handlers have none. *)
Theorem metric_labels_per_handler env r s :
  let root := emitted (rootHandler r env s) in
  let data := emitted (dataHandler r env s) in
  let err := emitted (errorHandler r env s) in
  counter_labels root = [route_labels "/"] /\
  histogram_labels root = [route_labels "/"] /\
  counter_labels data = [route_labels "/data"] /\
  histogram_labels data = [route_labels "/data"] /\
  counter_labels err = [<["status" := AString "error"]> (route_labels "/error")] /\
  carry_labels ["method"; "endpoint"] root /\
  carry_labels ["method"; "endpoint"] data /\
  (forall route, route_labels route !! "method" = Some (AString "GET") /\
                 route_labels route !! "endpoint" = Some (AString route) /\
                 route_labels route !! "status" = None) /\
  (<["status" := AString "error"]> (route_labels "/error") : gmap string attr_value)
    !! "status" = Some (AString "error").
Proof.
  cbv zeta.
  rewrite rootHandler_events, dataHandler_events, errorHandler_events.
  unfold carry_labels.
  repeat split; try reflexivity;
    cbn; repeat (constructor; try (eexists; reflexivity)).
Qed.

End GoServiceProperties.

(* ===================================================================== *)
(** * Properties of the traffic generator                                 *)
(* ===================================================================== *)

Create HintDb journey.

Section TrafficProperties.
Import Traffic.

Implicit Types (world : World) (s : state) (code : string).

(** *** Strings *)

Lemma length_append (a b : string) :
  String.length (a +:+ b) = (String.length a + String.length b)%nat.
Proof.
  induction a as [|c a IH]; [reflexivity|].
  change (String c a +:+ b) with (String c (a +:+ b)).
  cbn [String.length]. now rewrite IH.
Qed.

Lemma strip_newlines_fallback (a : string) :
  strip_newlines (a +:+ ("000" +:+ newline)) = a +:+ "000".
Proof.
  induction a as [|c a IH]; [reflexivity|].
  change (String c a +:+ ("000" +:+ newline))
    with (String c (a +:+ ("000" +:+ newline))).
  cbn [strip_newlines]. rewrite IH.
  destruct a; reflexivity.
Qed.

Lemma is_success_iff code :
  is_success code = true <-> code = "200" \/ code = "500".
Proof.
  unfold is_success. rewrite orb_true_iff, !String.eqb_eq. reflexivity.
Qed.

Lemma fallback_not_success (a : string) : is_success (a +:+ "000") = false.
Proof.
  apply not_true_is_false. rewrite is_success_iff.
  intros [H | H]; pose proof (f_equal String.length H) as Hlen;
    rewrite length_append in Hlen; cbn in Hlen;
    (destruct a; [discriminate H | cbn in Hlen; lia]).
Qed.

(** *** make_request *)

Lemma make_request_spec service endpoint description world s :
  let code := recorded_code (curl world (length (issued s)) (curl_invocation endpoint)) in
  make_request service endpoint description world s =
  Done tt {| request_count := request_count s;
             out := out s ++ [if is_success code
                              then Succeeded service description code
                              else Failed service description code];
             issued := issued s ++ [curl_invocation endpoint];
             dates := dates s; draws := draws s |}.
Proof.
  cbv zeta. unfold recorded_code, make_request, assign_subst, or_list, run_curl.
  unfold mbind, sh_bind, mret, sh_ret, echo_captured.
  destruct (curl world (length (issued s)) (curl_invocation endpoint)) as [text st].
  cbn [fst snd].
  destruct (st =? 0) eqn:Hst; cbn [fst snd]; rewrite ?Hst; cbn -[strip_newlines is_success];
    match goal with |- context [is_success ?c] => destruct (is_success c) end;
    reflexivity.
Qed.

(** Without the [|| echo] the assignment would end the script when curl
    fails: the early exit is part of the model. *)
Remark bare_substitution_exits world s (i : invocation) :
  (curl world (length (issued s)) i).2 <> 0 ->
  exists st s', assign_subst (run_curl i) world s = Exited st s' /\ st <> 0.
Proof.
  intros Hst. unfold assign_subst, run_curl.
  destruct (curl world (length (issued s)) i) as [text st]; cbn in *.
  apply Z.eqb_neq in Hst as Hst'. rewrite Hst'. eauto.
Qed.

(** *** Counting the calls of a computation *)

Lemma performs_ret {A} (a : A) : performs 0 (mret a).
Proof. intros world s. exists a, s. repeat split. cbn; lia. Qed.

Lemma performs_bind {A B} (n m : nat) (c : sh A) (k : A -> sh B) :
  performs n c -> (forall a, performs m (k a)) -> performs (n + m) (c ≫= k).
Proof.
  intros Hc Hk world s.
  destruct (Hc world s) as (a & s1 & E1 & L1 & R1).
  destruct (Hk a world s1) as (b & s2 & E2 & L2 & R2).
  exists b, s2. unfold mbind, sh_bind. rewrite E1, E2.
  repeat split; [lia | congruence].
Qed.

Lemma performs_echo (l : line) : performs 0 (echo l).
Proof. intros world s. eexists _, _. repeat split. cbn; lia. Qed.

Lemma performs_sleep : performs 0 sleep.
Proof. apply performs_ret. Qed.

Lemma performs_RANDOM : performs 0 RANDOM.
Proof. intros world s. eexists _, _. repeat split. cbn; lia. Qed.

Lemma performs_random_element (array : list string) :
  performs 0 (random_element array).
Proof.
  unfold random_element.
  apply (performs_bind 0 0); [apply performs_RANDOM | intros; apply performs_ret].
Qed.

Lemma performs_make_request service endpoint description :
  performs 1 (make_request service endpoint description).
Proof.
  intros world s. eexists _, _. split; [apply make_request_spec|].
  cbn. rewrite length_app. cbn. split; [lia | reflexivity].
Qed.

#[local] Hint Resolve performs_echo performs_sleep performs_make_request
  performs_random_element : journey.

(** Splits a sequence [c;; rest] whose first command makes [n] calls. *)
Ltac step_journey n m :=
  apply (performs_bind n m); [auto with journey | intros ?].

Lemma user_journey_calls :
  Forall (fun '(journey, n) => performs n (user_journey journey)) calls_per_journey.
Proof.
  unfold calls_per_journey.
  repeat constructor; unfold user_journey.
  - step_journey 0%nat 4%nat. step_journey 1%nat 3%nat. step_journey 0%nat 3%nat.
    step_journey 1%nat 2%nat. step_journey 1%nat 1%nat. auto with journey.
  - step_journey 0%nat 3%nat. step_journey 1%nat 2%nat. step_journey 0%nat 2%nat.
    step_journey 1%nat 1%nat. step_journey 0%nat 1%nat. auto with journey.
  - step_journey 0%nat 3%nat. step_journey 1%nat 2%nat. step_journey 1%nat 1%nat.
    auto with journey.
  - step_journey 0%nat 3%nat. step_journey 1%nat 2%nat. step_journey 1%nat 1%nat.
    auto with journey.
  - step_journey 0%nat 3%nat. step_journey 1%nat 2%nat. step_journey 1%nat 1%nat.
    auto with journey.
  - step_journey 0%nat 2%nat. step_journey 1%nat 1%nat. step_journey 0%nat 1%nat.
    auto with journey.
  - step_journey 0%nat 1%nat. auto with journey.
  - step_journey 0%nat 1%nat. step_journey 0%nat 1%nat. auto with journey.
Qed.

(** *** The loop *)

Lemma wrap64_add (a b : Z) : wrap64 (wrap64 a + b) = wrap64 (a + b).
Proof.
  unfold wrap64. f_equal.
  replace ((a + 2 ^ 63) mod 2 ^ 64 - 2 ^ 63 + b + 2 ^ 63)
    with ((a + 2 ^ 63) mod 2 ^ 64 + b) by lia.
  rewrite Zplus_mod_idemp_l. f_equal. lia.
Qed.

Lemma wrap64_small (a : Z) : - 2 ^ 63 <= a < 2 ^ 63 -> wrap64 a = a.
Proof. intros H. unfold wrap64. rewrite Z.mod_small; lia. Qed.

Lemma wrap64_range (a : Z) : - 2 ^ 63 <= wrap64 a < 2 ^ 63.
Proof.
  unfold wrap64. pose proof (Z.mod_pos_bound (a + 2 ^ 63) (2 ^ 64)). lia.
Qed.

(** The test of the loop on the elapsed time, which always fits. *)
Lemma test_ge_elapsed (a DURATION : Z) :
  test_ge (wrap64 a) DURATION = true <->
  - 2 ^ 63 <= DURATION < 2 ^ 63 /\ DURATION <= wrap64 a.
Proof.
  unfold test_ge, in_int64. pose proof (wrap64_range a).
  rewrite !andb_true_iff, !Z.leb_le, !Z.ltb_lt, Z.geb_le. lia.
Qed.

(** Each branch of the selection adds to [request_count] the number of calls
    its journey makes. *)
Lemma select_journey_calls (random : Z) :
  0 <= (select_journey random).2 /\
  ((select_journey random).1, Z.to_nat (select_journey random).2)
    ∈ calls_per_journey.
Proof.
  unfold select_journey, calls_per_journey.
  repeat case_match; (split; [cbn; lia | cbn; set_solver]).
Qed.

Lemma select_journey_performs (random : Z) :
  performs (Z.to_nat (select_journey random).2)
           (user_journey (select_journey random).1).
Proof.
  destruct (select_journey_calls random) as [_ Hin].
  pose proof user_journey_calls as Hall.
  rewrite Forall_forall in Hall. exact (Hall _ Hin).
Qed.

(** One pass never ends the script, and it keeps [request_count] equal to
    the number of requests issued. *)
Lemma iteration_counts DURATION start_time world s :
  exists again s',
    iteration DURATION start_time world s = Done again s' /\
    (counts_requests s -> counts_requests s').
Proof.
  unfold iteration, date, mbind, sh_bind.
  destruct (test_ge _ DURATION).
  - eexists _, _. split; [reflexivity|]. unfold counts_requests. cbn. auto.
  - cbn [RANDOM].
    set (random := Z.rem _ 100).
    pose proof (select_journey_performs random) as Hj.
    destruct (select_journey_calls random) as [Hpos _].
    destruct (select_journey random) as [journey calls]. cbn [fst snd] in *.
    match goal with |- context [user_journey journey world ?s0] =>
      destruct (Hj world s0) as ([] & s1 & -> & Hlen & Hcount) end.
    cbn [add_requests get_request_count request_count].
    destruct (Z.rem _ 20 =? 0); eexists _, _; (split; [reflexivity|]);
      unfold counts_requests; cbn in *; intros Hinv;
      rewrite Hcount, Hinv, wrap64_add, Hlen; f_equal; lia.
Qed.

Lemma main_loop_counts fuel DURATION start_time world s :
  exists left s',
    main_loop fuel DURATION start_time world s = Done left s' /\
    (counts_requests s -> counts_requests s').
Proof.
  revert s. induction fuel as [|fuel IH]; intros s.
  - exists false, s. split; [reflexivity | auto].
  - cbn [main_loop]. unfold mbind, sh_bind.
    destruct (iteration_counts DURATION start_time world s)
      as (again & s1 & -> & H1).
    destruct again.
    + destruct (IH s1) as (left & s2 & -> & H2).
      exists left, s2. split; [reflexivity | auto].
    + exists true, s1. split; [reflexivity | auto].
Qed.

(** The whole run reaches its end or is still in the loop after [fuel]
    passes; it is never ended by [set -e]. *)
Lemma traffic_counts fuel DURATION world :
  exists left s',
    traffic fuel DURATION world initial = Done left s' /\ counts_requests s'.
Proof.
  unfold traffic, mbind, sh_bind. cbn [echo date].
  match goal with |- context [main_loop _ _ ?t world ?s0] =>
    destruct (main_loop_counts fuel DURATION t world s0)
      as (left & s1 & -> & H1) end.
  assert (counts_requests s1) as Hs1 by (apply H1; reflexivity).
  destruct left; eexists _, _; (split; [reflexivity | exact Hs1]).
Qed.

(** *** The claims about the scheduler *)

Lemma RANDOM_range (raw : Z) : 0 <= Z.land raw 32767 < 32768.
Proof.
  change 32767 with (Z.ones 15). rewrite Z.land_ones by lia.
  change 32768 with (2 ^ 15). apply Z.mod_pos_bound. lia.
Qed.

(** The number drawn, [$RANDOM % 100], lies in [0,100), and the chain of
    tests selects the journeys by the static table of weights 25, 20, 5, 10,
    10, 10, 5, 15, which sum to 100. Of the hundred remainders, each journey
    is selected by as many as its weight. *)
Lemma select_journey_table (raw : Z) :
  let random := Z.rem (Z.land raw 32767) 100 in
  let journey := (select_journey random).1 in
  0 <= random < 100 /\
  total_weight journey_weights = 100 /\
  weighted_pick journey_weights random = Some journey /\
  (journey = 1 <-> random < 25) /\
  (journey = 2 <-> 25 <= random < 45) /\
  (journey = 3 <-> 45 <= random < 50) /\
  (journey = 4 <-> 50 <= random < 60) /\
  (journey = 5 <-> 60 <= random < 70) /\
  (journey = 6 <-> 70 <= random < 80) /\
  (journey = 8 <-> 80 <= random < 85) /\
  (journey = 7 <-> 85 <= random < 100) /\
  Forall (fun '(j, weight) => share j = Z.to_nat weight) journey_weights.
Proof.
  cbv zeta.
  pose proof (RANDOM_range raw) as Hr.
  assert (0 <= Z.rem (Z.land raw 32767) 100 < 100) as Hrange
    by (apply Z.rem_bound_pos; lia).
  set (random := Z.rem _ 100) in *. clearbody random.
  split; [exact Hrange|]. split; [reflexivity|].
  assert (Forall (fun '(j, weight) => share j = Z.to_nat weight) journey_weights)
    as Hshares
    by (unfold journey_weights;
        repeat (constructor; [vm_compute; reflexivity|]); constructor).
  unfold select_journey, journey_weights, weighted_pick.
  repeat case_match;
    repeat match goal with
           | H : (_ <? _) = true |- _ => apply Z.ltb_lt in H
           | H : (_ <? _) = false |- _ => apply Z.ltb_ge in H
           end;
    cbn [fst]; try lia;
    (repeat split; try lia; try discriminate; try reflexivity; try exact Hshares).
Qed.

(** The 32768 values of [$RANDOM] do not split evenly over the hundred
    remainders: the number of values that select each journey, in the order
    of the weight table. Every share is within 0.04 percentage points of the
    journey's weight. *)
Remark RANDOM_shares :
  map RANDOM_share (journey_weights.*1)
  = [8200; 6560; 1640; 3280; 3278; 3270; 1635; 4905].
Proof. vm_compute. reflexivity. Qed.


(** Shares that are the ones counted lie within 0.04 percentage points of
    the weights. *)
Lemma shares_within_tolerance (f : Z -> Z) :
  map f (journey_weights.*1) = [8200; 6560; 1640; 3280; 3278; 3270; 1635; 4905] ->
  Forall (fun '(j, weight) =>
            Z.abs (100 * f j - 32768 * weight) * 10000 <= 4 * (100 * 32768))
         journey_weights.
Proof.
  intros Hshares. cbn in Hshares.
  injection Hshares as H1 H2 H3 H4 H5 H6 H8 H7.
  unfold journey_weights.
  repeat (apply List.Forall_cons; [cbv beta iota|]);
    [ rewrite H1 | rewrite H2 | rewrite H3 | rewrite H4
    | rewrite H5 | rewrite H6 | rewrite H8 | rewrite H7
    | apply List.Forall_nil ]; lia.
Qed.


(** C5: [make_request] always prints one verdict for the call, and the
    verdict is the successful one exactly when the recorded status is 200 or
    500. The status 000, and whatever is recorded when curl itself fails, is
    classified as a failure. *)
Theorem call_classification world s (service endpoint description : string) :
  let r := curl world (length (issued s)) (curl_invocation endpoint) in
  let code := recorded_code r in
  (exists s', make_request service endpoint description world s = Done tt s' /\
     out s' = out s ++ [if is_success code
                        then Succeeded service description code
                        else Failed service description code]) /\
  (is_success code = true <-> code = "200" \/ code = "500") /\
  is_success "000" = false /\
  (r.2 <> 0 -> is_success code = false).
Proof.
  cbv zeta. split; [|split; [|split]].
  - eexists. split; [apply make_request_spec | reflexivity].
  - apply is_success_iff.
  - reflexivity.
  - intros Hst. unfold recorded_code. apply Z.eqb_neq in Hst. rewrite Hst.
    rewrite strip_newlines_fallback. apply fallback_not_success.
Qed.

(** C7: with a duration of 0 and a clock that has not gone backwards since
    the start, the run is over at the first test of the loop: no number is
    drawn, no journey runs, no request is issued, and the total reported
    is 0. *)
Theorem zero_duration_run world (fuel : nat) :
  0 <= date_s world 1 - date_s world 0 < 2 ^ 63 ->
  traffic (S fuel) 0 world initial =
  Done true {| request_count := 0;
               out := [Starting; Completed; Total 0;
                       Duration (date_s world 1 - date_s world 0); Finished];
               issued := []; dates := 2; draws := 0 |}.
Proof.
  intros Hclock.
  unfold traffic, mbind, sh_bind. cbn [echo date main_loop].
  unfold mbind, sh_bind, iteration, mbind, sh_bind. cbn [date dates initial].
  rewrite (proj2 (test_ge_elapsed (date_s world 1 - date_s world 0) 0))
    by (rewrite wrap64_small; lia).
  rewrite (wrap64_small (date_s world 1 - date_s world 0)) by lia.
  reflexivity.
Qed.

Lemma zero_duration_run_sample :
  0 <= date_s sample_world 1 - date_s sample_world 0 < 2 ^ 63 /\
  traffic 1 0 sample_world initial =
  Done true {| request_count := 0;
               out := [Starting; Completed; Total 0; Duration 1; Finished];
               issued := []; dates := 2; draws := 0 |}.
Proof.
  split; [vm_compute; split; [discriminate | reflexivity]|].
  apply (zero_duration_run sample_world 0).
  vm_compute; split; [discriminate | reflexivity].
Defined.

(** C8, as stated, fails on every call: the curl command line of a journey
    step has no option that bounds the time of the transfer. Here, the three
    calls of the data-fetch journey. *)
Lemma data_fetch_calls_apply_no_timeout :
  exists s', user_journey 2 sample_world initial = Done tt s' /\
    length (issued s') = 3%nat /\
    Forall (fun i => applies_timeout i = false) (issued s').
Proof.
  eexists. split; [vm_compute; reflexivity|].
  split; [reflexivity | repeat constructor].
Qed.

(** C8 (amended): no outbound call is given a timeout: curl runs with the
    options -s, -o /dev/null and -w only. A call on which curl fails (any
    non-zero exit status) is printed as a failed call, with curl's output
    followed by 000 as its status, and neither it nor anything else in a pass
    of the loop ends the script: every pass, and the run as a whole, goes
    on. *)
Theorem transport_failure_recorded_without_abort :
  (forall endpoint, applies_timeout (curl_invocation endpoint) = false) /\
  (forall world s (service endpoint description : string),
     let r := curl world (length (issued s)) (curl_invocation endpoint) in
     r.2 <> 0 ->
     make_request service endpoint description world s =
     Done tt {| request_count := request_count s;
                out := out s ++ [Failed service description (r.1 +:+ "000")];
                issued := issued s ++ [curl_invocation endpoint];
                dates := dates s; draws := draws s |}) /\
  (forall DURATION start_time world s,
     exists again s', iteration DURATION start_time world s = Done again s') /\
  (forall fuel DURATION world,
     exists left s', traffic fuel DURATION world initial = Done left s').
Proof.
  split; [reflexivity|]. split; [|split].
  - intros world s service endpoint description r Hst.
    rewrite make_request_spec. fold r. unfold recorded_code.
    apply Z.eqb_neq in Hst. rewrite Hst, strip_newlines_fallback.
    now rewrite fallback_not_success.
  - intros DURATION start_time world s.
    destruct (iteration_counts DURATION start_time world s) as (a & s' & H & _).
    eauto.
  - intros fuel DURATION world.
    destruct (traffic_counts fuel DURATION world) as (l & s' & H & _). eauto.
Qed.

(** A run in the sample world: the third call cannot connect, is printed as
    failed, and the loop goes on to the next journey. *)
Example sample_run_survives_failed_call :
  exists s', traffic 10 3 sample_world initial = Done true s' /\
    out s' = [Starting; UserJourney "Fetching Data";
              Succeeded "Python" "Fetch Python data" "200";
              Succeeded "Go" "Fetch Go data" "200";
              Failed "Rust" "Fetch Rust data" "000000";
              UserJourney "Error Handling";
              Succeeded "Python" "Trigger Python error" "200";
              Completed; Total 4; Duration 3; Finished].
Proof. eexists. split; vm_compute; reflexivity. Qed.

(** C9: each journey makes the number of calls the claim lists (dashboard
    load 4; data fetch and the three heavy loads 3; multi-service error 2;
    single error and random single call 1), each branch of the selection
    adds exactly that number to [request_count], and so, after any number of
    passes of the loop, [request_count] is the number of requests issued so
    far (in the shell's 64-bit arithmetic: the two are equal as long as fewer
    than 2^63 requests were issued). *)
Theorem request_count_counts_issued_requests world (DURATION : Z) (fuel : nat) :
  Forall (fun '(journey, n) => performs n (user_journey journey))
         calls_per_journey /\
  (forall random,
     ((select_journey random).1, Z.to_nat (select_journey random).2)
       ∈ calls_per_journey) /\
  exists left s,
    traffic fuel DURATION world initial = Done left s /\
    request_count s = wrap64 (Z.of_nat (length (issued s))) /\
    (Z.of_nat (length (issued s)) < 2 ^ 63 ->
     request_count s = Z.of_nat (length (issued s))).
Proof.
  split; [apply user_journey_calls|].
  split; [intros random; apply select_journey_calls|].
  destruct (traffic_counts fuel DURATION world) as (left & s & Hrun & Hinv).
  exists left, s. split; [exact Hrun|]. split; [exact Hinv|].
  intros Hsmall. rewrite Hinv. apply wrap64_small. lia.
Qed.

End TrafficProperties.

(* ===================================================================== *)
(** * Properties of the telemetry initialiser                             *)
(* ===================================================================== *)

Section TelemetryProperties.
Import Telemetry.

Implicit Types (call : Call) (s : state) (e : effect).

Lemma sdk_then {A} (c : sdk_call) (k : js A) call s :
  (sdk c;; k) call s =
  if throws call c then Thrown s else k call (record (Sdk c) s).
Proof. unfold mbind, js_bind, sdk. now destruct (throws call c). Qed.

Lemma completed_record e s :
  completed_initializations (record e s) =
  (completed_initializations s +
   if bool_decide (e = ConsoleLog success_message) then 1 else 0)%nat.
Proof.
  unfold completed_initializations, record. cbn [effects].
  rewrite List.filter_app, length_app. cbn.
  now destruct (bool_decide _).
Qed.

Lemma sdk_calls_record e s :
  sdk_calls (record e s) =
  sdk_calls s ++ match e with Sdk c => [c] | _ => [] end.
Proof.
  unfold sdk_calls, record. cbn [effects].
  rewrite omap_app. now destruct e.
Qed.

Lemma completed_record_sdk (c : sdk_call) s :
  completed_initializations (record (Sdk c) s) = completed_initializations s.
Proof.
  rewrite completed_record, bool_decide_eq_false_2 by discriminate. lia.
Qed.

Lemma sdk_calls_record_sdk (c : sdk_call) s :
  sdk_calls (record (Sdk c) s) = sdk_calls s ++ [c].
Proof. apply sdk_calls_record. Qed.

(** What the [try] block leaves behind: when a call throws, the flag and the
    number of completed initialisations are as before; when none does, the
    whole sequence of SDK calls was made and the flag is set. *)
Lemma try_block_outcome call s :
  match try_block call s with
  | Thrown s' =>
      isInitialized s' = isInitialized s /\
      completed_initializations s' = completed_initializations s
  | Returned _ s' =>
      isInitialized s' = true /\
      completed_initializations s' = S (completed_initializations s) /\
      sdk_calls s' = sdk_calls s ++ all_sdk_calls
  end.
Proof.
  unfold try_block.
  repeat (rewrite sdk_then;
          match goal with |- context [throws call ?c] => destruct (throws call c) end;
          [ rewrite ?completed_record_sdk; split; reflexivity | ]).
  unfold mbind, js_bind. cbn [set_isInitialized console_log].
  split; [reflexivity|]. split.
  - rewrite completed_record, bool_decide_eq_true_2 by reflexivity.
    match goal with
    | |- context [completed_initializations
                    {| isInitialized := true; effects := effects ?x |}] =>
        change (completed_initializations
                  {| isInitialized := true; effects := effects x |})
          with (completed_initializations x)
    end.
    rewrite !completed_record_sdk. lia.
  - unfold sdk_calls, record. cbn [effects].
    rewrite !omap_app. cbn. rewrite <- !app_assoc. reflexivity.
Qed.

(** Once the flag is set, a call returns at one of the two early exits. *)
Lemma initialized_call_returns_early call s :
  isInitialized s = true ->
  initializeTelemetry call s = s \/
  initializeTelemetry call s = record (ConsoleLog already_message) s.
Proof.
  intros Hflag. unfold initializeTelemetry. rewrite Hflag.
  destruct (window_defined call); cbn; auto.
Qed.

Lemma initialized_calls_change_nothing s (calls : list Call) :
  isInitialized s = true ->
  isInitialized (calls_from s calls) = true /\
  sdk_calls (calls_from s calls) = sdk_calls s /\
  completed_initializations (calls_from s calls) = completed_initializations s.
Proof.
  revert s. induction calls as [|call calls IH]; intros s Hflag; [auto|].
  cbn [calls_from foldl]. fold (calls_from (initializeTelemetry call s) calls).
  destruct (initialized_call_returns_early call s Hflag) as [-> | ->].
  - apply IH, Hflag.
  - destruct (IH (record (ConsoleLog already_message) s) Hflag) as (H1 & H2 & H3).
    rewrite H1, H2, H3, sdk_calls_record, completed_record, app_nil_r.
    rewrite bool_decide_eq_false_2 by discriminate. repeat split. lia.
Qed.

(** A call that sets the flag ran in the browser and made the whole sequence
    of SDK calls. *)
Lemma first_successful_call call s :
  isInitialized s = false ->
  isInitialized (initializeTelemetry call s) = true ->
  window_defined call = true /\
  sdk_calls (initializeTelemetry call s) = sdk_calls s ++ all_sdk_calls.
Proof.
  unfold initializeTelemetry. intros Hflag.
  destruct (window_defined call); cbn [negb]; [|congruence].
  rewrite Hflag. pose proof (try_block_outcome call s) as Hout.
  destruct (try_block call s) as [[] s' | s'].
  - intros _. split; [reflexivity | apply Hout].
  - cbn [record isInitialized]. destruct Hout as [Hsame _]. congruence.
Qed.

Lemma at_most_once_call call s :
  at_most_once s -> at_most_once (initializeTelemetry call s).
Proof.
  intros [Hle Hzero]. unfold initializeTelemetry.
  destruct (window_defined call); cbn [negb]; [|split; assumption].
  destruct (isInitialized s) eqn:Hflag.
  - split.
    + rewrite completed_record, bool_decide_eq_false_2 by discriminate. lia.
    + cbn [record isInitialized]. congruence.
  - specialize (Hzero eq_refl).
    pose proof (try_block_outcome call s) as Hout.
    destruct (try_block call s) as [[] s' | s'].
    + destruct Hout as (Hset & Hone & _). split; [lia | congruence].
    + destruct Hout as (Hsame & Hcount).
      rewrite Hflag in Hsame.
      split; [|intros _];
        rewrite completed_record, bool_decide_eq_false_2 by discriminate; lia.
Qed.

Lemma at_most_once_calls s (calls : list Call) :
  at_most_once s -> at_most_once (calls_from s calls).
Proof.
  revert s. induction calls as [|call calls IH]; intros s Hs; [exact Hs|].
  apply IH, at_most_once_call, Hs.
Qed.

(** C10: after a first successful call (one that found the flag unset and
    left it set, which only a client-side call can), every later call returns
    at one of the two early exits, so that no further SDK call (no tracer
    provider, exporter or instrumentation registration) is ever made and the
    flag stays set; and over any sequence of calls made by a freshly loaded
    module, the initialisation runs to its end at most once. *)
Theorem initializeTelemetry_idempotent (first : Call) (s : state)
    (later : list Call) :
  isInitialized s = false ->
  isInitialized (initializeTelemetry first s) = true ->
  let s1 := initializeTelemetry first s in
  window_defined first = true /\
  sdk_calls s1 = sdk_calls s ++ all_sdk_calls /\
  (forall call, initializeTelemetry call s1 = s1 \/
                initializeTelemetry call s1 = record (ConsoleLog already_message) s1) /\
  isInitialized (calls_from s1 later) = true /\
  sdk_calls (calls_from s1 later) = sdk_calls s1 /\
  (forall calls, (completed_initializations (calls_from loaded calls) <= 1)%nat).
Proof.
  intros Hunset Hset s1.
  destruct (first_successful_call first s Hunset Hset) as [Hwin Hcalls].
  destruct (initialized_calls_change_nothing s1 later Hset) as (Hflag & Hsame & _).
  repeat split; try assumption.
  - intros call. apply initialized_call_returns_early, Hset.
  - intros calls. apply (at_most_once_calls loaded calls).
    split; [cbn; lia | reflexivity].
Qed.

Lemma initializeTelemetry_idempotent_sample :
  isInitialized loaded = false /\
  isInitialized (initializeTelemetry in_browser loaded) = true /\
  sdk_calls (calls_from (initializeTelemetry in_browser loaded)
               [in_browser; on_server; exporter_fails])
  = sdk_calls (initializeTelemetry in_browser loaded).
Proof.
  split; [reflexivity|]. split; [reflexivity|].
  apply (initializeTelemetry_idempotent in_browser loaded
           [in_browser; on_server; exporter_fails]); reflexivity.
Defined.

(** While the flag is unset nothing is remembered: a call whose exporter
    cannot be built leaves the flag unset, and the next call builds a second
    tracer provider. *)
Example failed_initialization_is_retried :
  isInitialized (initializeTelemetry exporter_fails loaded) = false /\
  sdk_calls (calls_from loaded [exporter_fails; in_browser])
  = [MergeResource; NewWebTracerProvider] ++ all_sdk_calls.
Proof. split; reflexivity. Qed.

End TelemetryProperties.

(* ===================================================================== *)
(** * Further properties of the Go service                                *)
(* ===================================================================== *)

Section GoServiceFurtherProperties.
Import GoService.

Implicit Types (env : Env) (r : Request) (s : state).

(** The mux hands a request to one of the three handlers or to [NotFound]. *)
Lemma mux_lookup_cases (path : string) :
  mux_lookup path = rootHandler \/ mux_lookup path = dataHandler \/
  mux_lookup path = errorHandler \/ mux_lookup path = NotFound.
Proof.
  unfold mux_lookup, routes. cbn [foldl].
  destruct (pattern_matches "/" path), (pattern_matches "/data" path),
    (pattern_matches "/error" path);
    with_strategy opaque [rootHandler dataHandler errorHandler NotFound]
      (cbn; tauto).
Qed.

(** Closes the goal that each CORS header is in the response. *)
Ltac all_cors :=
  unfold cors_headers; repeat (apply List.Forall_cons; [reflexivity|]); apply List.Forall_nil.

(** X1: whatever the request the server hands to the handler (any method,
    path and context; the server answers [OPTIONS *] by itself), the response
    carries the three CORS headers; an OPTIONS request is answered with
    status 200 and an empty body without reaching a handler: no span, log
    record or metric sample is produced for it. *)
Theorem cors_headers_on_handled_requests env r s :
  reaches_handler r ->
  let res := serve r env s in
  Forall (fun '(k, v) => header (response res) !! k = Some v) cors_headers /\
  (Method r = "OPTIONS" ->
   status (response res) = Some 200 /\ body (response res) = [] /\
   emitted res = []).
Proof.
  intros _. cbv zeta. unfold serve, handler, enableCORS, mux.
  destruct (String.eqb (Method r) "OPTIONS") eqn:Hm.
  - split; [all_cors | intros _; repeat split].
  - split.
    + destruct (mux_lookup_cases (Path r)) as [E | [E | [E | E]]];
        rewrite E; all_cors.
    + intros Hopt. rewrite Hopt in Hm. discriminate.
Qed.

Lemma cors_headers_on_handled_requests_sample :
  reaches_handler {| Method := "OPTIONS"; Path := "/data"; Context := None |} /\
  Forall (fun '(k, v) =>
            header (response
                      (serve {| Method := "OPTIONS"; Path := "/data";
                                Context := None |} sample_env sample_state))
              !! k = Some v) cors_headers.
Proof.
  assert (reaches_handler
            {| Method := "OPTIONS"; Path := "/data"; Context := None |}) as Hr
    by (intros [_ Hstar]; discriminate Hstar).
  split; [exact Hr|].
  exact (proj1 (cors_headers_on_handled_requests sample_env _ sample_state Hr)).
Defined.

(** X2: no handler looks at the request method. On the three registered
    paths, a request with a method other than OPTIONS, HEAD and CONNECT
    (POST, PUT, DELETE, ...) gets the response and produces the telemetry of
    a GET on the same path, "method" label GET included. *)
Theorem method_is_not_inspected env s (m path : string) (ctx : option SpanContext) :
  plain_method m ->
  documented {| Method := m; Path := path; Context := ctx |} ->
  serve {| Method := m; Path := path; Context := ctx |} env s
  = serve (GET path ctx) env s.
Proof.
  intros (Hm & _ & _) _. apply String.eqb_neq in Hm.
  unfold serve, handler, enableCORS, mux, GET. cbn [Method Path].
  rewrite Hm. change (String.eqb "GET" "OPTIONS") with false.
  destruct (mux_lookup_cases path) as [E | [E | [E | E]]]; rewrite E; reflexivity.
Qed.

Lemma method_is_not_inspected_sample :
  plain_method "POST" /\
  documented {| Method := "POST"; Path := "/error"; Context := None |} /\
  serve {| Method := "POST"; Path := "/error"; Context := None |}
        sample_env sample_state
  = serve (GET "/error" None) sample_env sample_state.
Proof.
  assert (plain_method "POST") as Hm by (repeat split; discriminate).
  assert (documented {| Method := "POST"; Path := "/error"; Context := None |})
    as Hdoc by (unfold documented; cbn; tauto).
  split; [exact Hm|]. split; [exact Hdoc|].
  exact (method_is_not_inspected sample_env sample_state "POST" "/error" None
           Hm Hdoc).
Defined.

(** X3: a GET on [/] is answered with status 200, content type
    application/json and the object service=go, message, timestamp, where
    the timestamp is the clock reading taken after the log record, in whole
    seconds. *)
Theorem root_endpoint_response env ctx s :
  let res := serve (GET "/" ctx) env s in
  status (response res) = Some 200 /\
  header (response res) !! "Content-Type" = Some "application/json" /\
  body (response res) =
    [VMap (<["service" := VStr "go"]>
           (<["message" := VStr "Hello from Go service!"]>
           (<["timestamp" := VInt (time_Now env (2 + ticks s) / 1000000000)]> ∅)))].
Proof. cbv zeta. repeat split; reflexivity. Qed.

(** The fixed part of a log entry and its trace correlation. *)
Lemma log_entry_fixed_keys (stamp : string) (ctx : option SpanContext)
    (level message : string) (fields : gmap string value) :
  fields !! "service" = None -> fields !! "timestamp" = None ->
  fields !! "level" = None -> fields !! "message" = None ->
  fields !! "trace_id" = None -> fields !! "span_id" = None ->
  let entry := log_entry stamp ctx level message fields in
  entry !! "service" = Some (VStr "go-service") /\
  entry !! "timestamp" = Some (VStr stamp) /\
  entry !! "level" = Some (VStr level) /\
  entry !! "message" = Some (VStr message) /\
  entry !! "trace_id" = VStr ∘ TraceID <$> ctx /\
  entry !! "span_id" = VStr ∘ SpanID <$> ctx.
Proof.
  intros H1 H2 H3 H4 H5 H6. cbv zeta. unfold log_entry.
  rewrite !lookup_union_r by assumption.
  destruct ctx; repeat split; reflexivity.
Qed.

(** X5: [logJSON] writes one line. A field passed by the caller wins over
    the entry's own key of the same name (a field called "level" or
    "trace_id" replaces the fixed one); every other key is as in the entry
    without fields. *)
Theorem logJSON_fields_override env s (ctx : option SpanContext)
    (level message : string) (fields : gmap string value) :
  exists entry,
    emitted (logJSON ctx level message fields env s) = [LogLine entry] /\
    (forall k v, fields !! k = Some v -> entry !! k = Some v) /\
    (forall k, fields !! k = None ->
       entry !! k =
       log_entry (RFC3339 env (time_Now env (ticks s))) ctx level message ∅ !! k).
Proof.
  eexists. split; [reflexivity|]. unfold log_entry. split.
  - intros k v Hk. now apply lookup_union_Some_l.
  - intros k Hk. rewrite lookup_union_r by exact Hk.
    now rewrite (left_id_L ∅ (∪)).
Qed.

(** Closes [correlated] for a log entry built by a handler. *)
Ltac correlated_entry :=
  match goal with
  | |- correlated ?ctx (log_entry ?stamp ?ctx ?level ?message ?fields) =>
      destruct (log_entry_fixed_keys stamp ctx level message fields)
        as (Hs & Ht & Hl & Hm & Hti & Hsi); try reflexivity;
      unfold correlated; rewrite Hs, Ht, Hl, Hm, Hti, Hsi; repeat split; eauto
  end.

(** X4: every log record a handler writes names the service and carries the
    trace and span ids of the span context found in the request's context
    (the ids are those of the inbound context: the handler discards the
    context of the span it starts); a request whose context holds no valid
    span context gets log records without these two keys. *)
Theorem handler_logs_carry_request_context env r s :
  Forall (correlated (Context r)) (log_entries (emitted (rootHandler r env s))) /\
  Forall (correlated (Context r)) (log_entries (emitted (dataHandler r env s))) /\
  Forall (correlated (Context r)) (log_entries (emitted (errorHandler r env s))).
Proof.
  rewrite rootHandler_events, dataHandler_events, errorHandler_events.
  cbn [log_entries omap]. unfold mbind, option_bind. cbn [app].
  repeat split; repeat (apply List.Forall_cons; [correlated_entry|]);
    apply List.Forall_nil.
Qed.

(** X6: with a clock that never goes back, the duration the root and data
    handlers record is not negative: it is the last reading of the clock in
    the handler minus the first. *)
Theorem recorded_durations_nonnegative env r s :
  monotone env ->
  histogram_values (emitted (rootHandler r env s))
    = [time_Now env (3 + ticks s) - time_Now env (ticks s)] /\
  histogram_values (emitted (dataHandler r env s))
    = [time_Now env (3 + ticks s) - time_Now env (ticks s)] /\
  0 <= time_Now env (3 + ticks s) - time_Now env (ticks s).
Proof.
  intros Hmono. rewrite rootHandler_events, dataHandler_events.
  repeat split; try reflexivity.
  pose proof (Hmono (ticks s) (3 + ticks s)%nat). lia.
Qed.

Lemma recorded_durations_nonnegative_sample :
  monotone sample_env /\
  histogram_values (emitted (dataHandler (GET "/data" None) sample_env sample_state))
    = [3000000000].
Proof.
  assert (monotone sample_env) as Hmono
    by (intros n m Hnm; cbn; lia).
  split; [exact Hmono|].
  exact (proj1 (proj2 (recorded_durations_nonnegative sample_env
                         (GET "/data" None) sample_state Hmono))).
Defined.

(** The counter increments of one request. *)
Lemma serve_counts_once env r s :
  documented r ->
  count is_counter_add (emitted (serve r env s))
  = if is_preflight r then 0%nat else 1%nat.
Proof.
  destruct r as [m path ctx]. unfold documented, is_preflight. cbn [Path Method].
  unfold serve, handler, enableCORS, mux. cbn [Path Method].
  intros [-> | [-> | ->]]; destruct (String.eqb m "OPTIONS"); reflexivity.
Qed.

(** X20: over any sequence of requests to the three registered paths, the
    request counter is incremented exactly once for every request that is
    not a CORS preflight, whatever its method and its outcome, and never for
    a preflight. *)
Theorem every_request_counted_once env (rs : list Request) s :
  Forall documented rs ->
  count is_counter_add (serve_all env rs s)
  = length (List.filter (fun r => negb (is_preflight r)) rs).
Proof.
  intros Hdoc. revert s. induction Hdoc as [|r rs Hr _ IH]; intros s; [reflexivity|].
  cbn [serve_all List.filter].
  pose proof (serve_counts_once env r s Hr) as Hone.
  destruct (serve r env s) as [[[] s'] t]. cbn [emitted snd] in Hone.
  unfold count in *. rewrite List.filter_app, length_app, Hone, IH.
  destruct (is_preflight r); reflexivity.
Qed.

Lemma every_request_counted_once_sample :
  Forall documented
    [GET "/" None;
     {| Method := "OPTIONS"; Path := "/data"; Context := None |};
     {| Method := "POST"; Path := "/error"; Context := None |}] /\
  count is_counter_add
    (serve_all sample_env
       [GET "/" None;
        {| Method := "OPTIONS"; Path := "/data"; Context := None |};
        {| Method := "POST"; Path := "/error"; Context := None |}]
       sample_state)
  = 2%nat.
Proof.
  assert (Forall documented
    [GET "/" None;
     {| Method := "OPTIONS"; Path := "/data"; Context := None |};
     {| Method := "POST"; Path := "/error"; Context := None |}]) as Hdoc
    by (repeat constructor; unfold documented; cbn; tauto).
  split; [exact Hdoc|].
  exact (every_request_counted_once sample_env _ sample_state Hdoc).
Defined.

End GoServiceFurtherProperties.

(* ===================================================================== *)
(** * Properties of the start-up                                          *)
(* ===================================================================== *)

Section GoStartupProperties.
Import GoStartup.

Implicit Types (world : World) (p : Process).

(** X7: [main] reaches [ListenAndServe] exactly when the trace exporter, the
    metrics exporter, the counter and the histogram were all created; the
    server then listens on :8000 with both providers registered for one and
    the same endpoint (the environment variable, or otel-collector:4317 when
    it is empty or unset) and with both instruments set, so that no handler
    runs with an instrument missing. *)
Theorem server_starts_only_when_set_up world :
  let p := (main world).1 in
  (served p = Some ":8000" <-> setup_succeeds world) /\
  (served p = None <-> ~ setup_succeeds world) /\
  (setup_succeeds world ->
   TracerProvider p = Some (endpoint world) /\
   MeterProvider p = Some (endpoint world) /\
   tracer p = Some "go-service" /\ meter p = Some "go-service" /\
   requestCounter p = Some "http_requests_total" /\
   requestDuration p = Some "http_request_duration_seconds") /\
  (OTEL_EXPORTER_OTLP_ENDPOINT world = "" -> endpoint world = "otel-collector:4317") /\
  (OTEL_EXPORTER_OTLP_ENDPOINT world <> "" ->
   endpoint world = OTEL_EXPORTER_OTLP_ENDPOINT world).
Proof.
  cbv zeta. unfold setup_succeeds, main, initTracer, initMeter.
  split; [|split; [|split; [|split]]].
  - destruct (otlptracegrpc_New world (endpoint world)),
      (otlpmetricgrpc_New world (endpoint world)),
      (Int64Counter world GoService.requestCounter),
      (Float64Histogram world GoService.requestDuration),
      (ListenAndServe world ":8000"); cbn; split; intros H;
      try discriminate; try reflexivity; try (repeat split; reflexivity);
      destruct H as (? & ? & ? & ?); discriminate.
  - destruct (otlptracegrpc_New world (endpoint world)),
      (otlpmetricgrpc_New world (endpoint world)),
      (Int64Counter world GoService.requestCounter),
      (Float64Histogram world GoService.requestDuration),
      (ListenAndServe world ":8000"); cbn; split; intros H;
      try discriminate; try reflexivity;
      try (intros (? & ? & ? & ?); discriminate);
      exfalso; apply H; repeat split; reflexivity.
  - intros (-> & -> & -> & ->).
    destruct (ListenAndServe world ":8000"); repeat split; reflexivity.
  - unfold endpoint. intros ->. reflexivity.
  - unfold endpoint. intros Hne. apply String.eqb_neq in Hne. now rewrite Hne.
Qed.

(** X8: every way [main] ends through [log.Fatal] (a failed set-up step, or
    the error [ListenAndServe] returns) exits with status 1 after one Fatal
    line and shuts no provider down, although the tracer provider may be
    registered by then; the two providers are shut down, meter first, only
    when [ListenAndServe] returns without an error. When the trace exporter
    cannot be built, the metrics side is not even attempted. *)
Theorem fatal_exit_skips_shutdown world :
  let '(p, e) := main world in
  (e = Exited 1 \/ e = Returned) /\
  (e = Exited 1 ->
   shut_down p = [] /\
   exists prefix err, List.filter (fun l => match l with Fatal _ _ => true | _ => false end)
                        (log p) = [Fatal prefix err]) /\
  (e = Returned <-> setup_succeeds world /\ ListenAndServe world ":8000" = None) /\
  (e = Returned -> shut_down p = [Meter; Tracer]) /\
  (otlptracegrpc_New world (endpoint world) <> None ->
   TracerProvider p = None /\ MeterProvider p = None /\ served p = None) /\
  (otlptracegrpc_New world (endpoint world) = None ->
   otlpmetricgrpc_New world (endpoint world) <> None ->
   e = Exited 1 /\ TracerProvider p = Some (endpoint world) /\ shut_down p = []).
Proof.
  unfold setup_succeeds, main, initTracer, initMeter.
  destruct (otlptracegrpc_New world (endpoint world)),
    (otlpmetricgrpc_New world (endpoint world)),
    (Int64Counter world GoService.requestCounter),
    (Float64Histogram world GoService.requestDuration),
    (ListenAndServe world ":8000"); cbn;
    (repeat split; try (intros; discriminate); try reflexivity; try tauto;
     try (left; reflexivity); try (right; reflexivity);
     try (intros; eexists _, _; reflexivity);
     try (intros; repeat split; reflexivity);
     try (intros (? & ? & ? & ?); discriminate);
     try (intros [(? & ? & ? & ?) ?]; discriminate);
     try (intros; congruence)).
Qed.

End GoStartupProperties.

(* ===================================================================== *)
(** * Further properties of the traffic generator                         *)
(* ===================================================================== *)

Create HintDb effect.

Section TrafficFurtherProperties.
Import Traffic.

Implicit Types (world : World) (s : state).

(** *** The effect of a journey *)

Lemma journey_effect_ret {A} (a : A) : journey_effect 0 (mret a).
Proof.
  intros world s. exists a, s, []. rewrite app_nil_r.
  repeat split; [lia | constructor].
Qed.

Lemma journey_effect_bind {A B} (n m : nat) (c : sh A) (k : A -> sh B) :
  journey_effect n c -> (forall a, journey_effect m (k a)) ->
  journey_effect (n + m) (c ≫= k).
Proof.
  intros Hc Hk world s.
  destruct (Hc world s) as (a & s1 & l1 & E1 & N1 & R1 & D1 & O1 & P1).
  destruct (Hk a world s1) as (b & s2 & l2 & E2 & N2 & R2 & D2 & O2 & P2).
  exists b, s2, (l1 ++ l2). unfold mbind, sh_bind. rewrite E1, E2.
  repeat split; try congruence; try lia.
  - rewrite O2, O1. now rewrite app_assoc.
  - apply Forall_app; split; assumption.
Qed.

Lemma journey_effect_echo (l : line) :
  is_progress l = false -> journey_effect 0 (echo l).
Proof.
  intros Hl world s. eexists tt, _, [l].
  repeat split; cbn; [lia | repeat constructor; exact Hl].
Qed.

Lemma journey_effect_banner (title : string) :
  journey_effect 0 (echo (UserJourney title)).
Proof. now apply journey_effect_echo. Qed.

Lemma journey_effect_sleep : journey_effect 0 sleep.
Proof. apply journey_effect_ret. Qed.

Lemma journey_effect_random_element (array : list string) :
  journey_effect 0 (random_element array).
Proof.
  intros world s. eexists _, _, []. rewrite app_nil_r.
  repeat split; cbn; [lia | constructor].
Qed.

Lemma journey_effect_make_request service endpoint description :
  journey_effect 1 (make_request service endpoint description).
Proof.
  intros world s. eexists tt, _, [_].
  split; [apply make_request_spec|]. cbn.
  rewrite length_app. cbn. repeat split; try lia.
  repeat constructor. now destruct (is_success _).
Qed.

#[local] Hint Resolve journey_effect_banner journey_effect_sleep
  journey_effect_make_request journey_effect_random_element : effect.

Ltac step_effect n m :=
  apply (journey_effect_bind n m); [auto with effect | intros ?].

(** Every journey has the effect of its number of calls. *)
Lemma user_journey_effect :
  Forall (fun '(journey, n) => journey_effect n (user_journey journey))
         calls_per_journey.
Proof.
  unfold calls_per_journey.
  repeat (apply List.Forall_cons; [unfold user_journey|]); [..|apply List.Forall_nil].
  - step_effect 0%nat 4%nat. step_effect 1%nat 3%nat. step_effect 0%nat 3%nat.
    step_effect 1%nat 2%nat. step_effect 1%nat 1%nat. auto with effect.
  - step_effect 0%nat 3%nat. step_effect 1%nat 2%nat. step_effect 0%nat 2%nat.
    step_effect 1%nat 1%nat. step_effect 0%nat 1%nat. auto with effect.
  - step_effect 0%nat 3%nat. step_effect 1%nat 2%nat. step_effect 1%nat 1%nat.
    auto with effect.
  - step_effect 0%nat 3%nat. step_effect 1%nat 2%nat. step_effect 1%nat 1%nat.
    auto with effect.
  - step_effect 0%nat 3%nat. step_effect 1%nat 2%nat. step_effect 1%nat 1%nat.
    auto with effect.
  - step_effect 0%nat 2%nat. step_effect 1%nat 1%nat. step_effect 0%nat 1%nat.
    auto with effect.
  - step_effect 0%nat 1%nat. auto with effect.
  - step_effect 0%nat 1%nat. step_effect 0%nat 1%nat. auto with effect.
Qed.

Lemma selected_journey_effect (random : Z) :
  journey_effect (Z.to_nat (select_journey random).2)
                 (user_journey (select_journey random).1).
Proof.
  destruct (select_journey_calls random) as [_ Hin].
  pose proof user_journey_effect as Hall.
  rewrite Forall_forall in Hall. exact (Hall _ Hin).
Qed.

(** A pass adds between one and four requests. *)
Lemma selected_calls_bounds (random : Z) :
  1 <= (select_journey random).2 <= 4.
Proof. unfold select_journey. repeat case_match; cbn; lia. Qed.

(** One pass of the loop, by cases on the test of the time elapsed. *)
Lemma iteration_cases DURATION start_time world s :
  let elapsed := wrap64 (date_s world (dates s) - start_time) in
  (test_ge elapsed DURATION = true /\
   iteration DURATION start_time world s =
   Done false {| request_count := request_count s;
                 out := out s ++ [Completed; Total (request_count s);
                                  Duration elapsed];
                 issued := issued s; dates := S (dates s);
                 draws := draws s |}) \/
  (test_ge elapsed DURATION = false /\
   exists s' lines,
     iteration DURATION start_time world s = Done true s' /\
     dates s' = S (dates s) /\
     out s' = out s ++ lines /\ Forall (progress_ok DURATION) lines /\
     (length (issued s) < length (issued s') <= length (issued s) + 4)%nat).
Proof.
  cbv zeta. unfold iteration, date, mbind, sh_bind.
  destruct (test_ge (wrap64 (date_s world (dates s) - start_time)) DURATION).
  - left. split; [reflexivity|]. cbn. rewrite <- !app_assoc. reflexivity.
  - right. split; [reflexivity|]. cbn [RANDOM].
    set (random := Z.rem _ 100).
    pose proof (selected_journey_effect random) as Hj.
    pose proof (selected_calls_bounds random) as Hb.
    destruct (select_journey random) as [journey calls]. cbn [fst snd] in *.
    match goal with |- context [user_journey journey world ?s0] =>
      destruct (Hj world s0) as ([] & s1 & lines & -> & Hlen & Hcount & Hdates & Hout & Hlines)
    end.
    cbn [add_requests get_request_count request_count].
    cbn in Hlen, Hdates, Hout.
    destruct (Z.rem _ 20 =? 0) eqn:Hrem; cbn.
    + eexists _, (lines ++ [_]). split; [reflexivity|]. cbn.
      rewrite Hout, app_assoc.
      repeat split; try assumption; try lia.
      apply Forall_app. split.
      * eapply Forall_impl; [exact Hlines|]. intros [] Hl; cbn in *; auto; discriminate.
      * repeat constructor. now apply Z.eqb_eq.
    + eexists _, lines. split; [reflexivity|]. cbn.
      repeat split; try assumption; try lia.
      eapply Forall_impl; [exact Hlines|]. intros [] Hl; cbn in *; auto; discriminate.
Qed.


(** *** Progress lines *)

Lemma main_loop_progress fuel DURATION start_time world s :
  Forall (progress_ok DURATION) (out s) ->
  exists left s',
    main_loop fuel DURATION start_time world s = Done left s' /\
    Forall (progress_ok DURATION) (out s').
Proof.
  revert s. induction fuel as [|fuel IH]; intros s Hs.
  - exists false, s. split; [reflexivity | exact Hs].
  - cbn [main_loop]. unfold mbind, sh_bind.
    destruct (iteration_cases DURATION start_time world s)
      as [[_ ->] | (_ & s1 & lines & -> & _ & Hout & Hlines & _)].
    + eexists true, _. split; [reflexivity|]. cbn.
      apply Forall_app. split; [exact Hs | repeat constructor].
    + apply IH. rewrite Hout. apply Forall_app. split; assumption.
Qed.

(** X11: every progress line of a run shows the run's duration and a request
    count that is a multiple of 20: the line is printed only when the count
    stands at such a multiple after a journey, so a multiple that a journey
    steps over is not reported. *)
Theorem progress_lines_show_multiples_of_20 (fuel : nat) (DURATION : Z) world :
  exists left s,
    traffic fuel DURATION world initial = Done left s /\
    Forall (progress_ok DURATION) (out s).
Proof.
  unfold traffic, mbind, sh_bind. cbn [echo date].
  match goal with |- context [main_loop _ _ ?t world ?s0] =>
    destruct (main_loop_progress fuel DURATION t world s0)
      as (left & s1 & -> & H1); [repeat constructor|] end.
  destruct left; eexists _, _; (split; [reflexivity|]); cbn; [|exact H1].
  apply Forall_app. split; [exact H1 | repeat constructor].
Qed.

(** *** The end of the run *)

Lemma main_loop_stops DURATION start_time world (fuel : nat) :
  - 2 ^ 63 <= DURATION < 2 ^ 63 ->
  forall (n : nat) s,
    (n < fuel)%nat ->
    DURATION <= wrap64 (date_s world (dates s + n) - start_time) ->
    exists s',
      main_loop fuel DURATION start_time world s = Done true s' /\
      (length (issued s') <= length (issued s) + 4 * n)%nat /\
      (dates s' <= dates s + S n)%nat.
Proof.
  intros Hrange.
  induction fuel as [|fuel IH]; intros n s Hn Hreach; [lia|].
  cbn [main_loop]. unfold mbind, sh_bind.
  destruct (iteration_cases DURATION start_time world s)
    as [[_ ->] | (Htest & s1 & lines & -> & Hdates & _ & _ & Hlen)].
  - eexists. split; [reflexivity|]. cbn. lia.
  - destruct n as [|n].
    + rewrite Nat.add_0_r in Hreach.
      rewrite (proj2 (test_ge_elapsed _ DURATION)) in Htest by (split; assumption).
      discriminate Htest.
    + destruct (IH n s1) as (s' & -> & Hlen' & Hdates'); [lia | |].
      * rewrite Hdates.
        now replace (S (dates s) + n)%nat with (dates s + S n)%nat by lia.
      * exists s'. split; [reflexivity|]. lia.
Qed.

(** X12: for a duration the shell can compare (one that fits in 64 bits),
    when the clock reading of pass n+1 shows that the duration has elapsed,
    the run is over by then (given that many passes): it has run at most n
    journeys, issued at most 4n requests and read the clock at most n+2
    times. *)
Theorem run_ends_when_clock_reaches_duration world (DURATION : Z) (n fuel : nat) :
  - 2 ^ 63 <= DURATION < 2 ^ 63 ->
  (n < fuel)%nat ->
  DURATION <= wrap64 (date_s world (S n) - date_s world 0) ->
  exists s,
    traffic fuel DURATION world initial = Done true s /\
    (length (issued s) <= 4 * n)%nat /\
    (dates s <= n + 2)%nat.
Proof.
  intros Hrange Hn Hreach.
  unfold traffic, mbind, sh_bind. cbn [echo date].
  match goal with |- context [main_loop _ _ ?t world ?s0] =>
    destruct (main_loop_stops DURATION t world fuel Hrange n s0 Hn)
      as (s1 & -> & Hlen & Hdates); [exact Hreach|] end.
  eexists. split; [reflexivity|]. cbn in *. lia.
Qed.

Lemma main_loop_report DURATION start_time world (fuel : nat) :
  forall s s',
    main_loop fuel DURATION start_time world s = Done true s' ->
    exists pre e,
      out s' = pre ++ [Completed; Total (request_count s'); Duration e] /\
      DURATION <= e.
Proof.
  induction fuel as [|fuel IH]; intros s s' Hrun; [discriminate|].
  cbn [main_loop] in Hrun. unfold mbind, sh_bind in Hrun.
  destruct (iteration_cases DURATION start_time world s)
    as [[Hge E] | (_ & s1 & lines & E & _)]; rewrite E in Hrun.
  - injection Hrun as <-. eexists _, _. split; [reflexivity|].
    apply test_ge_elapsed in Hge. apply Hge.
  - exact (IH s1 s' Hrun).
Qed.



(** *** The steps of the journeys *)

Lemma issues_bind {A B} (u1 u2 u : list string) (k1 k2 k : nat)
    (c : sh A) (f : A -> sh B) :
  issues u1 k1 c -> (forall a, issues u2 k2 (f a)) ->
  u = u1 ++ u2 -> k = (k1 + k2)%nat ->
  issues u k (c ≫= f).
Proof.
  intros Hc Hf -> -> world s.
  destruct (Hc world s) as (a & s1 & E1 & I1 & O1).
  destruct (Hf a world s1) as (b & s2 & E2 & I2 & O2).
  exists b, s2. unfold mbind, sh_bind. rewrite E1, E2.
  split; [reflexivity|]. split.
  - rewrite I2, I1, map_app. now rewrite app_assoc.
  - lia.
Qed.

Lemma issues_echo (l : line) : issues [] 1 (echo l).
Proof.
  intros world s. eexists tt, _. split; [reflexivity|]. cbn.
  rewrite app_nil_r, length_app. cbn. split; [reflexivity | lia].
Qed.

Lemma issues_sleep : issues [] 0 sleep.
Proof.
  intros world s. exists tt, s. rewrite app_nil_r.
  repeat split. lia.
Qed.

Lemma issues_make_request service endpoint description :
  issues [endpoint] 1 (make_request service endpoint description).
Proof.
  intros world s. eexists tt, _. split; [apply make_request_spec|].
  cbn. rewrite length_app. cbn. split; [reflexivity | lia].
Qed.

(** Follows a journey step by step. *)
Ltac follow_steps :=
  first
    [ apply issues_make_request
    | apply issues_echo
    | apply issues_sleep
    | eapply issues_bind;
      [ first [apply issues_make_request | apply issues_echo | apply issues_sleep]
      | intros ?; follow_steps
      | reflexivity
      | reflexivity ] ].

(** X9: each of the seven journeys with fixed steps runs curl on all its
    URLs, in the order of the script, and prints its banner and one line per
    call, whatever the calls return: a failed call does not cut the journey
    short. *)
Theorem journeys_run_all_their_steps :
  Forall (fun '(journey, urls) =>
            issues urls (S (length urls)) (user_journey journey))
         journey_urls.
Proof.
  unfold journey_urls.
  repeat (apply List.Forall_cons; [unfold user_journey; follow_steps|]).
  apply List.Forall_nil.
Qed.

Lemma rem_3_cases (r : Z) : 0 <= r -> Z.rem r 3 = 0 \/ Z.rem r 3 = 1 \/ Z.rem r 3 = 2.
Proof. intros Hr. pose proof (Z.rem_bound_pos r 3 Hr). lia. Qed.

Lemma rem_2_cases (r : Z) : 0 <= r -> Z.rem r 2 = 0 \/ Z.rem r 2 = 1.
Proof. intros Hr. pose proof (Z.rem_bound_pos r 2 Hr). lia. Qed.

(** X10: the random single call draws twice from [$RANDOM] and makes one
    request, to the root or data endpoint of the Python, Go or Rust service;
    the name printed with the verdict is the one of the service called. It
    never calls an error endpoint or the frontend. *)
Theorem random_call_targets world s :
  exists (service base path : string) s',
    user_journey 7 world s = Done tt s' /\
    (service, base) ∈ random_services /\
    path ∈ ["/"; "/data"] /\
    issued s' = issued s ++ [curl_invocation (base +:+ path)] /\
    out s' = out s ++
      [verdict service "Random call"
         (recorded_code (curl world (length (issued s))
                                    (curl_invocation (base +:+ path))))] /\
    draws s' = (2 + draws s)%nat.
Proof.
  unfold user_journey, random_element, RANDOM, mbind, sh_bind.
  cbn [mret sh_ret request_count out issued dates draws length].
  change (Z.of_nat 3) with 3. change (Z.of_nat 2) with 2.
  destruct (rem_3_cases (Z.land (random_source world (draws s)) 32767))
    as [E1 | [E1 | E1]]; try apply RANDOM_range;
  destruct (rem_2_cases (Z.land (random_source world (S (draws s))) 32767))
    as [E2 | E2]; try apply RANDOM_range;
  rewrite E1, E2; rewrite make_request_spec.
  all: unfold verdict, random_services.
  1-2: exists "Python", PYTHON_SERVICE.
  3-4: exists "Go", GO_SERVICE.
  5-6: exists "Rust", RUST_SERVICE.
  1,3,5: exists "/".
  4-6: exists "/data".
  all: eexists; split; [reflexivity|]; cbn [issued out draws];
    repeat split; try reflexivity; set_solver.
Qed.

Lemma run_ends_when_clock_reaches_duration_sample :
  - 2 ^ 63 <= 3 < 2 ^ 63 /\
  (2 < 10)%nat /\
  3 <= wrap64 (date_s sample_world 3 - date_s sample_world 0) /\
  exists s,
    traffic 10 3 sample_world initial = Done true s /\
    (length (issued s) <= 4 * 2)%nat /\ (dates s <= 2 + 2)%nat.
Proof.
  assert (3 <= wrap64 (date_s sample_world 3 - date_s sample_world 0)) as Hreach
    by (vm_compute; discriminate).
  split; [lia|]. split; [lia|]. split; [exact Hreach|].
  apply (run_ends_when_clock_reaches_duration sample_world 3 2 10);
    [lia | lia | exact Hreach].
Defined.


End TrafficFurtherProperties.

(* ===================================================================== *)
(** * Further properties of the telemetry initialiser                     *)
(* ===================================================================== *)

Section TelemetryFurtherProperties.
Import Telemetry.

Implicit Types (call : Call) (s : state) (e : effect).

(** Appends effects to a state. *)
Lemma record_effects e s : effects (record e s) = effects s ++ [e].
Proof. reflexivity. Qed.

(** The [try] block runs the SDK calls up to the first one that throws. *)
Lemma try_block_runs_until_throw call s :
  try_block call s =
  if succeeds call
  then Returned tt {| isInitialized := true;
                      effects := effects s ++ map Sdk all_sdk_calls
                                   ++ [ConsoleLog success_message] |}
  else Thrown {| isInitialized := isInitialized s;
                 effects := effects s
                              ++ map Sdk (completed_before call all_sdk_calls) |}.
Proof.
  unfold try_block, succeeds, all_sdk_calls.
  cbn [forallb completed_before].
  repeat (rewrite sdk_then;
          match goal with |- context [if throws call ?c then Thrown _ else _] =>
            destruct (throws call c) eqn:?
          end;
          [ cbn [negb andb map]; unfold record; cbn [effects isInitialized];
            rewrite <- ?app_assoc; cbn [app]; rewrite ?app_nil_r;
            destruct s; reflexivity | ]).
  cbn [negb andb map]. unfold mbind, js_bind, set_isInitialized, console_log, record.
  cbn [effects isInitialized]. rewrite <- !app_assoc. reflexivity.
Qed.


(** When some call throws, the completed ones stop short of it. *)
Lemma completed_before_stops call (cs : list sdk_call) :
  forallb (fun c => negb (throws call c)) cs = false ->
  exists c rest,
    cs = completed_before call cs ++ c :: rest /\ throws call c = true.
Proof.
  induction cs as [|c cs IH]; [discriminate|]. cbn.
  destruct (throws call c) eqn:Hc; cbn.
  - intros _. now exists c, cs.
  - intros H. destruct (IH H) as (c' & rest & E & Hc').
    exists c', rest. split; [now f_equal | exact Hc'].
Qed.

(** The SDK calls among appended effects. *)
Lemma sdk_calls_app_sdk s (cs : list sdk_call) (tail : list effect) b :
  (forall e, e ∈ tail -> match e with Sdk _ => False | _ => True end) ->
  sdk_calls {| isInitialized := b; effects := effects s ++ map Sdk cs ++ tail |}
  = sdk_calls s ++ cs.
Proof.
  intros Htail. unfold sdk_calls. cbn [effects]. rewrite !omap_app.
  assert (omap (fun e => match e with Sdk c => Some c | _ => None end) (map Sdk cs) = cs)
    as -> by (induction cs as [|c cs IH]; cbn; [reflexivity | now rewrite IH]).
  assert (omap (fun e => match e with Sdk c => Some c | _ => None end) tail = [])
    as ->.
  { induction tail as [|e tail IH]; [reflexivity|].
    pose proof (Htail e ltac:(left)) as He. destruct e; try contradiction;
      cbn; apply IH; intros e' He'; apply Htail; now right. }
  now rewrite app_nil_r.
Qed.

(** X14: a call in the browser that finds the flag unset and in which an SDK
    call throws leaves the flag unset and logs one console error; the SDK
    calls made before the throw stay made (they are the calls of a complete
    initialisation up to, and without, the first one that throws), so a
    provider built or registered by the failed attempt is not taken back. *)
Theorem failed_initialization_keeps_partial_setup call s :
  window_defined call = true ->
  isInitialized s = false ->
  succeeds call = false ->
  let s' := initializeTelemetry call s in
  isInitialized s' = false /\
  effects s' = effects s ++ map Sdk (completed_before call all_sdk_calls)
                 ++ [ConsoleError failure_message] /\
  sdk_calls s' = sdk_calls s ++ completed_before call all_sdk_calls /\
  exists c rest,
    all_sdk_calls = completed_before call all_sdk_calls ++ c :: rest /\
    throws call c = true.
Proof.
  intros Hwin Hflag Hfail. cbv zeta.
  unfold initializeTelemetry. rewrite Hwin, Hflag. cbn [negb].
  rewrite try_block_runs_until_throw, Hfail.
  unfold record. cbn [isInitialized effects].
  split; [exact Hflag|]. split; [now rewrite <- app_assoc|]. split.
  - rewrite <- app_assoc. apply sdk_calls_app_sdk.
    intros e He. apply list_elem_of_singleton in He as ->. exact I.
  - apply completed_before_stops. exact Hfail.
Qed.

(** One message for a call in the browser, none on the server. *)
Lemma failed_initialization_keeps_partial_setup_sample :
  window_defined exporter_fails = true /\
  isInitialized loaded = false /\
  succeeds exporter_fails = false /\
  sdk_calls (initializeTelemetry exporter_fails loaded)
  = [MergeResource; NewWebTracerProvider].
Proof.
  split; [reflexivity|]. split; [reflexivity|]. split; [reflexivity|].
  exact (proj1 (proj2 (proj2
    (failed_initialization_keeps_partial_setup exporter_fails loaded
       eq_refl eq_refl eq_refl)))).
Defined.

(** One message for a call in the browser, none on the server. *)
Lemma console_call call s :
  length (console (initializeTelemetry call s)) =
  (length (console s) + if window_defined call then 1 else 0)%nat.
Proof.
  unfold initializeTelemetry.
  destruct (window_defined call); cbn [negb]; [|lia].
  destruct (isInitialized s).
  - unfold console, record. cbn [effects].
    rewrite List.filter_app, length_app. reflexivity.
  - rewrite try_block_runs_until_throw.
    assert (forall cs, List.filter
              (fun e => match e with Sdk _ => false | _ => true end)
              (map Sdk cs) = []) as Hsdk
      by (intros cs; induction cs as [|c cs IH]; [reflexivity | exact IH]).
    destruct (succeeds call); unfold console, record; cbn [effects];
      rewrite !List.filter_app, !length_app, Hsdk; cbn; lia.
Qed.

(** X15: every call in the browser writes exactly one console message
    (already initialised, success, or failure) and a call on the server
    writes none: over any sequence of calls the console grows by the number
    of calls made in the browser. *)
Theorem one_console_message_per_client_call s (calls : list Call) :
  length (console (calls_from s calls)) =
  (length (console s) + length (client_side calls))%nat.
Proof.
  revert s. induction calls as [|call calls IH]; intros s; [cbn; lia|].
  cbn [calls_from foldl]. fold (calls_from (initializeTelemetry call s) calls).
  rewrite IH, console_call. unfold client_side. cbn [List.filter].
  destruct (window_defined call); cbn; lia.
Qed.

(** The flag keeps telling the truth over a call. *)
Lemma flag_tells_call call s :
  flag_tells s -> flag_tells (initializeTelemetry call s).
Proof.
  intros Hs. unfold initializeTelemetry.
  destruct (window_defined call); cbn [negb]; [|exact Hs].
  destruct Hs as [[Hflag Hzero] | (Hflag & Hone & before & Hcalls)]; rewrite Hflag.
  - pose proof (try_block_outcome call s) as Hout.
    destruct (try_block call s) as [[] s' | s'].
    + destruct Hout as (Hset & Hcount & Hsdk). right.
      split; [exact Hset|]. split; [lia|]. now exists (sdk_calls s).
    + destruct Hout as (Hsame & Hcount). left. split.
      * cbn [record isInitialized]. congruence.
      * rewrite completed_record, bool_decide_eq_false_2 by discriminate. lia.
  - right. split; [exact Hflag|]. split.
    + rewrite completed_record, bool_decide_eq_false_2 by discriminate. lia.
    + exists before. now rewrite sdk_calls_record, app_nil_r.
Qed.

(** X16: in a freshly loaded module, after any sequence of calls, the flag is
    set exactly when one initialisation ran to its end and unset exactly when
    none did; when it is set, the last SDK calls made are the eleven calls of
    a complete initialisation, in order. *)
Theorem flag_tells_whether_initialized (calls : list Call) :
  let s := calls_from loaded calls in
  (isInitialized s = true <-> completed_initializations s = 1%nat) /\
  (isInitialized s = false <-> completed_initializations s = 0%nat) /\
  (isInitialized s = true -> exists before, sdk_calls s = before ++ all_sdk_calls).
Proof.
  cbv zeta.
  assert (forall s, flag_tells s -> flag_tells (calls_from s calls)) as Hall.
  { induction calls as [|call calls IH]; intros s Hs; [exact Hs|].
    apply IH, flag_tells_call, Hs. }
  destruct (Hall loaded) as [[Hflag Hzero] | (Hflag & Hone & Hcalls)].
  - left. split; reflexivity.
  - rewrite Hflag, Hzero. repeat split; intros; try discriminate; lia.
  - rewrite Hflag, Hone. repeat split; intros; try discriminate; assumption.
Qed.

End TelemetryFurtherProperties.

(* ===================================================================== *)
(** * Properties of the simplified initialiser                            *)
(* ===================================================================== *)

Section ManualTelemetryProperties.
Import ManualTelemetry.

(** X17: the simplified initialiser keeps no flag: each call in the browser
    logs its message again, and a call on the server logs nothing, so after
    any sequence of calls the console holds one more message per call made
    in the browser. *)
Theorem manual_initializer_logs_every_client_call
    (console : list string) (calls : list bool) :
  calls_from console calls =
  console ++ replicate (length (List.filter id calls)) message.
Proof.
  revert console. induction calls as [|w calls IH]; intros console.
  - cbn. now rewrite app_nil_r.
  - cbn [calls_from foldl]. fold (calls_from (initializeTelemetry w console) calls).
    rewrite IH. unfold initializeTelemetry.
    destruct w; cbn; [now rewrite <- app_assoc | reflexivity].
Qed.

End ManualTelemetryProperties.

(* ===================================================================== *)
(** * Properties of the front page                                        *)
(* ===================================================================== *)

Section FrontendProperties.
Import Frontend.

Variable any : Type.
Variable null : any.

Implicit Types (world : World any) (s : state any).

(** X18: [fetchFromService] requests the data endpoint when asked for
    "data" and the root endpoint for any other word, and always ends with
    [loading] false. When the request fails or the body is not JSON, one
    console error is logged and the three data slots are unchanged. When it
    succeeds, nothing is logged and the data goes to the first slot whose
    port (8001, 8002, 8003, tested in this order) occurs in the endpoint; the
    other slots, or all three when no port occurs, stay as they were. *)
Theorem fetchFromService_outcome world (service endpoint : string) s :
  let url := endpoint +:+ (if String.eqb service "data" then "/data" else "/") in
  let s' := fetchFromService world service endpoint s in
  loading s' = false /\
  requests s' = requests s ++ [url] /\
  match world (length (requests s)) url with
  | Json data =>
      errors s' = errors s /\
      pythonData s' = (if includes endpoint "8001" then data else pythonData s) /\
      goData s' = (if includes endpoint "8001" then goData s
                   else if includes endpoint "8002" then data else goData s) /\
      rustData s' = (if includes endpoint "8001" then rustData s
                     else if includes endpoint "8002" then rustData s
                     else if includes endpoint "8003" then data else rustData s)
  | _ =>
      errors s' = errors s ++ ["Error fetching from " +:+ endpoint +:+ ":"] /\
      pythonData s' = pythonData s /\ goData s' = goData s /\
      rustData s' = rustData s
  end.
Proof.
  cbv zeta. unfold fetchFromService, fetch. cbn [requests setLoading].
  destruct (world _ _); cbn;
    try (repeat split; reflexivity).
  destruct (includes endpoint "8001"), (includes endpoint "8002"),
    (includes endpoint "8003"); repeat split; reflexivity.
Qed.

(** A click keeps each slot showing data of its own service. *)
Lemma click_keeps_provenance world (b : button) s :
  loading s = false /\ (forall svc, comes_from null world svc (shown svc s)) ->
  let s' := click world b s in
  loading s' = false /\ (forall svc, comes_from null world svc (shown svc s')) /\
  length (requests s') = S (length (requests s)).
Proof.
  intros [Hload Hfrom]. cbv zeta.
  destruct b as [svc | svc | svc]; destruct svc;
    unfold click, fetchFromService, triggerError, fetch;
    cbn [endpoint_of requests setLoading];
    match goal with |- context [world ?n ?u] => destruct (world n u) eqn:E end;
    cbn; rewrite ?length_app; cbn;
    (split; [try reflexivity; try exact Hload|]);
    (split; [|lia]);
    intros svc'; specialize (Hfrom svc'); destruct svc'; cbn in *; try exact Hfrom;
    right; eexists _, _; (split; [|exact E]); auto.
Qed.


End FrontendProperties.
